(** * The Tray binding (shell/browser/api/electron_api_tray.cc)

    A shallow embedding of the scripted [Tray] object: the methods the
    object template exposes, the observer callbacks it turns into scripted
    events, the [createTray] factory and the [IconType] converter.

    The binding is glue: what matters is which calls reach the native
    [TrayIcon], which exceptions are scheduled on the isolate and which
    events are emitted.  Every method is therefore a computation over the
    two fields of the C++ object that also yields the list of effects it
    produced, in order. *)

From Stdlib Require Import ZArith Ascii.
From stdpp Require Import base option strings list gmap.

Local Open Scope Z_scope.

(** ** Build targets

    The file is compiled once per target; [#if defined(OS_WIN)] and
    [#if defined(OS_MACOSX)] select code.  Any other target takes the
    [#else] branches. *)

Inductive Platform := OS_WIN | OS_MACOSX | OS_LINUX.

Definition defined_OS_WIN (os : Platform) : bool :=
  match os with OS_WIN => true | _ => false end.

Definition defined_OS_MACOSX (os : Platform) : bool :=
  match os with OS_MACOSX => true | _ => false end.

(** ** Host values

    Geometry, images and menus belong to the host.  Only their identity
    and the accessors this file uses are kept. *)

Record Point := { pt_x : Z; pt_y : Z }.
Record Rect := { r_x : Z; r_y : Z; r_width : Z; r_height : Z }.

(** [gfx::Point()] and [gfx::Rect()]. *)
Definition Point_default : Point := {| pt_x := 0; pt_y := 0 |}.
Definition Rect_default : Rect :=
  {| r_x := 0; r_y := 0; r_width := 0; r_height := 0 |}.

Definition UUID := N.

Record NativeImage := { native_image_id : N }.

Record MenuModel := { menu_model_id : N }.

(** A scripted [Menu]: the wrapper object and the model it owns. *)
Record Menu := { menu_wrapper_id : N; model : MenuModel }.

(** The two metrics handed to [GetSystemMetrics]. *)
Inductive SystemMetric := SM_CXSMICON | SM_CXICON.

(** What [TrayIcon] takes as an image: an [HICON] rendered from a native
    image at a system metric on Windows, the [gfx::Image] of the native
    image elsewhere.  Both are kept symbolic. *)
Inductive ImageType :=
| GetHICON (image : NativeImage) (size : SystemMetric)
| image_of (image : NativeImage).

(** ** Scripted values and converters

    A scripted value is seen only through the host's converters, so it is
    modelled by what each of them makes of it: whether it is [null], and
    the result of converting it to a string, a boolean, a native image, a
    menu or a point ([None] when that conversion fails). *)

Record V8Value := {
  IsNull : bool;
  as_string : option string;
  as_bool : option bool;
  as_NativeImage : option NativeImage;
  as_Menu : option Menu;
  as_Point : option Point
}.

(** [gin::Converter<T>::FromV8(isolate, val, &out)]: the flag returned and
    the content of [out] afterwards. *)
Class Converter (T : Type) := FromV8 : V8Value -> T -> bool * T.

Definition ConvertFromV8 {T} `{Converter T} (val : V8Value) (out : T)
  : bool * T := FromV8 val out.

(** A host converter writes [out] on success and leaves it alone
    otherwise. *)
Definition host_converter {T} (view : V8Value -> option T) : Converter T :=
  fun val out =>
    match view val with
    | Some v => (true, v)
    | None => (false, out)
    end.

(** [std::string] and [base::string16] are both modelled by [string]. *)
#[export] Instance Converter_string : Converter string :=
  host_converter as_string.
#[export] Instance Converter_bool : Converter bool :=
  host_converter as_bool.
#[export] Instance Converter_Point : Converter Point :=
  host_converter as_Point.

(** [gin::Handle<T>]: empty, or holding an object. *)
Definition Handle (T : Type) := option T.

Definition IsEmpty {T} (h : Handle T) : bool :=
  match h with None => true | Some _ => false end.

#[export] Instance Converter_Handle_NativeImage
  : Converter (Handle NativeImage) :=
  host_converter (fun val => Some <$> as_NativeImage val).
#[export] Instance Converter_Handle_Menu : Converter (Handle Menu) :=
  host_converter (fun val => Some <$> as_Menu val).

(** *** [gin::Converter<electron::TrayIcon::IconType>] *)

Inductive IconType :=
| IconType_None | IconType_Info | IconType_Warning | IconType_Error
| IconType_Custom.

Definition IconType_FromV8 (val : V8Value) (out : IconType)
  : bool * IconType :=
  let '(converted, mode) := ConvertFromV8 val ""%string in
  if converted then
    if String.eqb mode "none" then (true, IconType_None)
    else if String.eqb mode "info" then (true, IconType_Info)
    else if String.eqb mode "warning" then (true, IconType_Warning)
    else if String.eqb mode "error" then (true, IconType_Error)
    else if String.eqb mode "custom" then (true, IconType_Custom)
    else (false, out)
  else (false, out).

#[export] Instance Converter_IconType : Converter IconType := IconType_FromV8.

(** *** [gin_helper::Dictionary] and [gin::Arguments] *)

(** The scripted object behind a dictionary, keyed by property name. *)
Abbreviation Dictionary := (gmap string V8Value).

(** [Dictionary::Get(key, &out)]: false when the property is absent or
    does not convert. *)
Definition Dictionary_Get {T} `{Converter T}
    (options : Dictionary) (key : string) (out : T) : bool * T :=
  match options !! key with
  | Some value => ConvertFromV8 value out
  | None => (false, out)
  end.

(** The arguments of a scripted call and the cursor over them. *)
Record Arguments := {
  info : list V8Value;
  next_ : nat;
  insufficient_arguments_ : bool
}.

Definition Arguments_of (values : list V8Value) : Arguments :=
  {| info := values; next_ := 0; insufficient_arguments_ := false |}.

Definition Length (args : Arguments) : nat := length (info args).

(** [Arguments::GetNext(&out)]: past the end it records the shortage and
    fails; otherwise it consumes one argument, convertible or not. *)
Definition GetNext {T} `{Converter T} (args : Arguments) (out : T)
  : bool * T * Arguments :=
  match info args !! next_ args with
  | None =>
      (false, out,
       {| info := info args; next_ := next_ args;
          insufficient_arguments_ := true |})
  | Some val =>
      let '(converted, out') := ConvertFromV8 val out in
      (converted, out',
       {| info := info args; next_ := S (next_ args);
          insufficient_arguments_ := insufficient_arguments_ args |})
  end.

(** ** The native collaborator *)

(** [TrayIcon::BalloonOptions]. *)
Record BalloonOptions := {
  icon_type : IconType;
  icon : option ImageType;
  title : string;
  content : string;
  large_icon : bool;
  no_sound : bool;
  respect_quiet_time : bool
}.

(** The calls the binding can make on [TrayIcon], with their arguments.
    [TI_delete] is the release of the owned icon by [unique_ptr::reset]. *)
Inductive TrayIconCall :=
| TI_Create (guid : option UUID)
| TI_AddObserver
| TI_delete
| TI_SetImage (image : ImageType)
| TI_SetPressedImage (image : ImageType)
| TI_SetToolTip (tool_tip : string)
| TI_SetTitle (title : string)
| TI_GetTitle
| TI_SetIgnoreDoubleClickEvents (ignore : bool)
| TI_GetIgnoreDoubleClickEvents
| TI_DisplayBalloon (options : BalloonOptions)
| TI_RemoveBalloon
| TI_Focus
| TI_PopUpContextMenu (pos : Point) (menu_model : option MenuModel)
| TI_CloseContextMenu
| TI_SetContextMenu (menu_model : option MenuModel)
| TI_GetBounds.

(** ** Effects *)

Inductive Exception :=
| Error (message : string)
| TypeError (message : string).

(** The event object built by [CreateEventFromFlags(modifiers)]. *)
Inductive UIEvent := CreateEventFromFlags (modifiers : Z).

Inductive EventArg :=
| arg_Rect (bounds : Rect)
| arg_Point (location : Point)
| arg_strings (files : list string)
| arg_string (text : string).

(** [Emit(name, args...)] carries no custom event object,
    [EmitCustomEvent(name, event, args...)] carries one. *)
Record Emission := {
  event_name : string;
  custom_event : option UIEvent;
  event_args : list EventArg
}.

(** [NullDereference] is [tray_icon_->...] on a released icon. *)
Inductive Effect :=
| Call (c : TrayIconCall)
| Throw (e : Exception)
| Emitted (e : Emission)
| NullDereference.

(** What this file takes from declarations it only includes: the target
    it is built for, the default-constructed [BalloonOptions], and the
    answers of the native icon to the three queries, as functions of what
    has happened so far. *)
Record Host := {
  target_os : Platform;
  BalloonOptions_default : BalloonOptions;
  TrayIcon_GetTitle : list Effect -> string;
  TrayIcon_GetIgnoreDoubleClickEvents : list Effect -> bool;
  TrayIcon_GetBounds : list Effect -> Rect
}.

(** ** The binding object *)

(** The owned native icon.  [TrayIcon::Create] hands out an icon that
    remembers the guid it was created with. *)
Record TrayIcon := { created_with : option UUID }.

(** The fields of [Tray]: [tray_icon_] is null once released, [menu_]
    keeps the scripted menu alive. *)
Record Tray := {
  tray_icon_ : option TrayIcon;
  menu_ : option Menu
}.

(** A method runs on [this], sees what happened before ([past]) and
    returns a value, the new [this] and the effects it produced. *)
Definition Eff (A : Type) : Type :=
  Tray -> list Effect -> A * Tray * list Effect.

Definition eff_ret {A} (a : A) : Eff A := fun this _ => (a, this, []).

Definition eff_bind {A B} (f : A -> Eff B) (m : Eff A) : Eff B :=
  fun this past =>
    let '(a, this1, e1) := m this past in
    let '(b, this2, e2) := f a this1 (past ++ e1) in
    (b, this2, e1 ++ e2).

#[export] Instance Eff_ret : MRet Eff := @eff_ret.
#[export] Instance Eff_bind : MBind Eff := @eff_bind.

Definition result {A} (r : A * Tray * list Effect) : A := r.1.1.
Definition this_after {A} (r : A * Tray * list Effect) : Tray := r.1.2.
Definition effects {A} (r : A * Tray * list Effect) : list Effect := r.2.

Definition get_this : Eff Tray := fun this _ => (this, this, []).
Definition set_menu_ (m : option Menu) : Eff unit :=
  fun this _ => (tt, {| tray_icon_ := tray_icon_ this; menu_ := m |}, []).
Definition reset_tray_icon_ : Eff unit :=
  fun this _ =>
    (tt, {| tray_icon_ := None; menu_ := menu_ this |},
     match tray_icon_ this with Some _ => [Call TI_delete] | None => [] end).

Definition ThrowError (message : string) : Eff unit :=
  fun this _ => (tt, this, [Throw (Error message)]).
Definition ThrowTypeError (message : string) : Eff unit :=
  fun this _ => (tt, this, [Throw (TypeError message)]).
Definition Emit_ (e : Emission) : Eff unit :=
  fun this _ => (tt, this, [Emitted e]).

Definition null_dereference : Eff unit :=
  fun this _ => (tt, this, [NullDereference]).

(** A smart pointer in a boolean context. *)
Definition non_null {A} (p : option A) : bool :=
  match p with Some _ => true | None => false end.

(** [tray_icon_->c(...)] for a call without a result. *)
Definition tray_icon_call (c : TrayIconCall) : Eff unit :=
  fun this _ =>
    match tray_icon_ this with
    | Some _ => (tt, this, [Call c])
    | None => (tt, this, [NullDereference])
    end.

(** [tray_icon_->c()] for a query; [answer] is the native icon's. *)
Definition tray_icon_query {A} (c : TrayIconCall)
    (answer : list Effect -> A) : Eff A :=
  fun this past =>
    match tray_icon_ this with
    | Some _ => (answer past, this, [Call c])
    | None => (answer past, this, [NullDereference])
    end.

(** ** The methods of [Tray] *)

Section Methods.

Variable host : Host.

(** [image->GetHICON(GetSystemMetrics(size))] on Windows,
    [image->image()] elsewhere. *)
Definition ToImageType (size : SystemMetric) (image : NativeImage)
  : ImageType :=
  if defined_OS_WIN (target_os host) then GetHICON image size
  else image_of image.

Definition CheckDestroyed : Eff bool :=
  this ← get_this;
  if negb (non_null (tray_icon_ this))
  then ThrowError "Tray is destroyed";; mret false
  else mret true.

Definition Destroy : Eff unit :=
  set_menu_ None;;
  reset_tray_icon_.

Definition IsDestroyed : Eff bool :=
  this ← get_this;
  mret (negb (non_null (tray_icon_ this))).

Definition SetImage (image : NativeImage) : Eff unit :=
  alive ← CheckDestroyed;
  if negb alive then mret tt
  else tray_icon_call (TI_SetImage (ToImageType SM_CXSMICON image)).

Definition SetPressedImage (image : NativeImage) : Eff unit :=
  alive ← CheckDestroyed;
  if negb alive then mret tt
  else tray_icon_call (TI_SetPressedImage (ToImageType SM_CXSMICON image)).

Definition SetToolTip (tool_tip : string) : Eff unit :=
  alive ← CheckDestroyed;
  if negb alive then mret tt
  else tray_icon_call (TI_SetToolTip tool_tip).

Definition SetTitle (title : string) : Eff unit :=
  alive ← CheckDestroyed;
  if negb alive then mret tt
  else if defined_OS_MACOSX (target_os host)
       then tray_icon_call (TI_SetTitle title)
       else mret tt.

Definition GetTitle : Eff string :=
  alive ← CheckDestroyed;
  if negb alive then mret ""
  else if defined_OS_MACOSX (target_os host)
       then tray_icon_query TI_GetTitle (TrayIcon_GetTitle host)
       else mret "".

Definition SetIgnoreDoubleClickEvents (ignore : bool) : Eff unit :=
  alive ← CheckDestroyed;
  if negb alive then mret tt
  else if defined_OS_MACOSX (target_os host)
       then tray_icon_call (TI_SetIgnoreDoubleClickEvents ignore)
       else mret tt.

Definition GetIgnoreDoubleClickEvents : Eff bool :=
  alive ← CheckDestroyed;
  if negb alive then mret false
  else if defined_OS_MACOSX (target_os host)
       then tray_icon_query TI_GetIgnoreDoubleClickEvents
              (TrayIcon_GetIgnoreDoubleClickEvents host)
       else mret false.

(** The options handed to [TrayIcon::DisplayBalloon] once title and
    content are in: the remaining [Get]s, then the icon. *)
Definition fill_balloon_options (options : Dictionary)
    (title content : string) : BalloonOptions :=
  let d := BalloonOptions_default host in
  let icon_handle := (Dictionary_Get options "icon" (None : Handle NativeImage)).2 in
  let icon_type' := (Dictionary_Get options "iconType" (icon_type d)).2 in
  let large_icon' := (Dictionary_Get options "largeIcon" (large_icon d)).2 in
  let no_sound' := (Dictionary_Get options "noSound" (no_sound d)).2 in
  let respect_quiet_time' :=
    (Dictionary_Get options "respectQuietTime" (respect_quiet_time d)).2 in
  {| icon_type := icon_type';
     icon :=
       match icon_handle with
       | Some image =>
           Some (ToImageType (if large_icon' then SM_CXICON else SM_CXSMICON)
                   image)
       | None => icon d
       end;
     title := title;
     content := content;
     large_icon := large_icon';
     no_sound := no_sound';
     respect_quiet_time := respect_quiet_time' |}.

Definition DisplayBalloon (options : Dictionary) : Eff unit :=
  alive ← CheckDestroyed;
  if negb alive then mret tt
  else
    let d := BalloonOptions_default host in
    let '(has_title, title) := Dictionary_Get options "title" (title d) in
    if negb has_title then ThrowError "'title' and 'content' must be defined"
    else
      let '(has_content, content) :=
        Dictionary_Get options "content" (content d) in
      if negb has_content
      then ThrowError "'title' and 'content' must be defined"
      else tray_icon_call
             (TI_DisplayBalloon (fill_balloon_options options title content)).

Definition RemoveBalloon : Eff unit :=
  alive ← CheckDestroyed;
  if negb alive then mret tt
  else tray_icon_call TI_RemoveBalloon.

Definition Focus : Eff unit :=
  alive ← CheckDestroyed;
  if negb alive then mret tt
  else tray_icon_call TI_Focus.

Definition PopUpContextMenu (args : Arguments) : Eff unit :=
  alive ← CheckDestroyed;
  if negb alive then mret tt
  else
    let '(_, menu, args1) := GetNext args (None : Handle Menu) in
    let '(_, pos, _) := GetNext args1 Point_default in
    tray_icon_call
      (TI_PopUpContextMenu pos
         (if IsEmpty menu then None else model <$> menu)).

Definition CloseContextMenu : Eff unit :=
  alive ← CheckDestroyed;
  if negb alive then mret tt
  else tray_icon_call TI_CloseContextMenu.

Definition SetContextMenu (arg : V8Value) : Eff unit :=
  alive ← CheckDestroyed;
  if negb alive then mret tt
  else
    if IsNull arg then
      set_menu_ None;;
      tray_icon_call (TI_SetContextMenu None)
    else
      match ConvertFromV8 arg (None : Handle Menu) with
      | (true, Some menu) =>
          set_menu_ (Some menu);;
          tray_icon_call (TI_SetContextMenu (Some (model menu)))
      | (true, None) => null_dereference
      | (false, _) => ThrowTypeError "Must pass Menu or null"
      end.

Definition GetBounds : Eff Rect :=
  alive ← CheckDestroyed;
  if negb alive then mret Rect_default
  else tray_icon_query TI_GetBounds (TrayIcon_GetBounds host).

End Methods.

(** ** Observer callbacks *)

Definition Emit (name : string) (args : list EventArg) : Eff unit :=
  Emit_ {| event_name := name; custom_event := None; event_args := args |}.

Definition EmitCustomEvent (name : string) (event : UIEvent)
    (args : list EventArg) : Eff unit :=
  Emit_ {| event_name := name; custom_event := Some event;
           event_args := args |}.

Definition OnClicked (bounds : Rect) (location : Point) (modifiers : Z)
  : Eff unit :=
  EmitCustomEvent "click" (CreateEventFromFlags modifiers)
    [arg_Rect bounds; arg_Point location].

Definition OnDoubleClicked (bounds : Rect) (modifiers : Z) : Eff unit :=
  EmitCustomEvent "double-click" (CreateEventFromFlags modifiers)
    [arg_Rect bounds].

Definition OnRightClicked (bounds : Rect) (modifiers : Z) : Eff unit :=
  EmitCustomEvent "right-click" (CreateEventFromFlags modifiers)
    [arg_Rect bounds].

Definition OnBalloonShow : Eff unit := Emit "balloon-show" [].
Definition OnBalloonClicked : Eff unit := Emit "balloon-click" [].
Definition OnBalloonClosed : Eff unit := Emit "balloon-closed" [].

Definition OnDrop : Eff unit := Emit "drop" [].
Definition OnDropFiles (files : list string) : Eff unit :=
  Emit "drop-files" [arg_strings files].
Definition OnDropText (text : string) : Eff unit :=
  Emit "drop-text" [arg_string text].

Definition OnMouseEntered (location : Point) (modifiers : Z) : Eff unit :=
  EmitCustomEvent "mouse-enter" (CreateEventFromFlags modifiers)
    [arg_Point location].
Definition OnMouseExited (location : Point) (modifiers : Z) : Eff unit :=
  EmitCustomEvent "mouse-leave" (CreateEventFromFlags modifiers)
    [arg_Point location].
Definition OnMouseMoved (location : Point) (modifiers : Z) : Eff unit :=
  EmitCustomEvent "mouse-move" (CreateEventFromFlags modifiers)
    [arg_Point location].
Definition OnMouseUp (location : Point) (modifiers : Z) : Eff unit :=
  EmitCustomEvent "mouse-up" (CreateEventFromFlags modifiers)
    [arg_Point location].
Definition OnMouseDown (location : Point) (modifiers : Z) : Eff unit :=
  EmitCustomEvent "mouse-down" (CreateEventFromFlags modifiers)
    [arg_Point location].

Definition OnDragEntered : Eff unit := Emit "drag-enter" [].
Definition OnDragExited : Eff unit := Emit "drag-leave" [].
Definition OnDragEnded : Eff unit := Emit "drag-end" [].

(** The observer interface as data: one constructor per callback, with
    the callback's parameters. *)
Inductive Callback :=
| cb_OnClicked (bounds : Rect) (location : Point) (modifiers : Z)
| cb_OnDoubleClicked (bounds : Rect) (modifiers : Z)
| cb_OnRightClicked (bounds : Rect) (modifiers : Z)
| cb_OnBalloonShow
| cb_OnBalloonClicked
| cb_OnBalloonClosed
| cb_OnDrop
| cb_OnDropFiles (files : list string)
| cb_OnDropText (text : string)
| cb_OnMouseEntered (location : Point) (modifiers : Z)
| cb_OnMouseExited (location : Point) (modifiers : Z)
| cb_OnMouseMoved (location : Point) (modifiers : Z)
| cb_OnMouseUp (location : Point) (modifiers : Z)
| cb_OnMouseDown (location : Point) (modifiers : Z)
| cb_OnDragEntered
| cb_OnDragExited
| cb_OnDragEnded.

Definition deliver (cb : Callback) : Eff unit :=
  match cb with
  | cb_OnClicked bounds location modifiers =>
      OnClicked bounds location modifiers
  | cb_OnDoubleClicked bounds modifiers => OnDoubleClicked bounds modifiers
  | cb_OnRightClicked bounds modifiers => OnRightClicked bounds modifiers
  | cb_OnBalloonShow => OnBalloonShow
  | cb_OnBalloonClicked => OnBalloonClicked
  | cb_OnBalloonClosed => OnBalloonClosed
  | cb_OnDrop => OnDrop
  | cb_OnDropFiles files => OnDropFiles files
  | cb_OnDropText text => OnDropText text
  | cb_OnMouseEntered location modifiers => OnMouseEntered location modifiers
  | cb_OnMouseExited location modifiers => OnMouseExited location modifiers
  | cb_OnMouseMoved location modifiers => OnMouseMoved location modifiers
  | cb_OnMouseUp location modifiers => OnMouseUp location modifiers
  | cb_OnMouseDown location modifiers => OnMouseDown location modifiers
  | cb_OnDragEntered => OnDragEntered
  | cb_OnDragExited => OnDragExited
  | cb_OnDragEnded => OnDragEnded
  end.

(** ** Construction *)

(** [TrayIcon::Create(guid)] returns the new icon. *)
Definition TrayIcon_Create (guid : option UUID) : TrayIcon :=
  {| created_with := guid |}.

(** [Tray::Tray(image, guid, args)]: the member initialiser, then the
    body.  [args] is not read. *)
Definition Tray_ctor (host : Host) (image : NativeImage)
    (guid : option UUID) (args : Arguments) (past : list Effect)
  : Tray * list Effect :=
  let this0 := {| tray_icon_ := Some (TrayIcon_Create guid); menu_ := None |} in
  let created := [Call (TI_Create guid)] in
  let '(_, this1, body) :=
    (SetImage host image;; tray_icon_call TI_AddObserver)
      this0 (past ++ created) in
  (this1, created ++ body).

(** [Tray::New]: the handle returned (empty on failure) and the effects.
    [is_ready] is [Browser::Get()->is_ready()]. *)
Definition New (host : Host) (is_ready : bool) (image : NativeImage)
    (guid : option UUID) (args : Arguments) (past : list Effect)
  : Handle Tray * list Effect :=
  if negb is_ready
  then (None, [Throw (Error "Cannot create Tray before app is ready")])
  else if defined_OS_WIN (target_os host)
            && (negb (non_null guid) && (1 <? Length args)%nat)
  then (None, [Throw (Error "Invalid GUID format")])
  else
    let '(tray, done) := Tray_ctor host image guid args past in
    (Some tray, done).

(** ** The scripted interface

    [GetObjectTemplateBuilder] exposes sixteen methods.  A scripted call
    is a method together with its marshalled arguments. *)

Inductive Method :=
| destroy
| isDestroyed
| setImage (image : NativeImage)
| setPressedImage (image : NativeImage)
| setToolTip (tool_tip : string)
| setTitle (title : string)
| getTitle
| setIgnoreDoubleClickEvents (ignore : bool)
| getIgnoreDoubleClickEvents
| displayBalloon (options : Dictionary)
| removeBalloon
| focus
| popUpContextMenu (args : list V8Value)
| closeContextMenu
| setContextMenu (arg : V8Value)
| getBounds.

Inductive Returned :=
| ret_void
| ret_bool (b : bool)
| ret_string (s : string)
| ret_Rect (r : Rect).

Definition returning {A} (wrap : A -> Returned) (m : Eff A) : Eff Returned :=
  a ← m; mret (wrap a).

Definition invoke (host : Host) (m : Method) : Eff Returned :=
  match m with
  | destroy => returning (fun _ => ret_void) Destroy
  | isDestroyed => returning ret_bool IsDestroyed
  | setImage image => returning (fun _ => ret_void) (SetImage host image)
  | setPressedImage image =>
      returning (fun _ => ret_void) (SetPressedImage host image)
  | setToolTip tool_tip => returning (fun _ => ret_void) (SetToolTip tool_tip)
  | setTitle title => returning (fun _ => ret_void) (SetTitle host title)
  | getTitle => returning ret_string (GetTitle host)
  | setIgnoreDoubleClickEvents ignore =>
      returning (fun _ => ret_void) (SetIgnoreDoubleClickEvents host ignore)
  | getIgnoreDoubleClickEvents =>
      returning ret_bool (GetIgnoreDoubleClickEvents host)
  | displayBalloon options =>
      returning (fun _ => ret_void) (DisplayBalloon host options)
  | removeBalloon => returning (fun _ => ret_void) RemoveBalloon
  | focus => returning (fun _ => ret_void) Focus
  | popUpContextMenu args =>
      returning (fun _ => ret_void) (PopUpContextMenu (Arguments_of args))
  | closeContextMenu => returning (fun _ => ret_void) CloseContextMenu
  | setContextMenu arg => returning (fun _ => ret_void) (SetContextMenu arg)
  | getBounds => returning ret_Rect (GetBounds host)
  end.

(** A script: scripted calls one after the other on the same object.
    The result is the object and everything that has happened. *)
Fixpoint run (host : Host) (script : list Method) (this : Tray)
    (past : list Effect) : Tray * list Effect :=
  match script with
  | [] => (this, past)
  | m :: rest =>
      let '(_, this', e) := invoke host m this past in
      run host rest this' (past ++ e)
  end.

(** ** Reading a list of effects *)

Definition calls (es : list Effect) : list TrayIconCall :=
  omap (fun e => match e with Call c => Some c | _ => None end) es.

Definition thrown (es : list Effect) : list Exception :=
  omap (fun e => match e with Throw x => Some x | _ => None end) es.

Definition emitted (es : list Effect) : list Emission :=
  omap (fun e => match e with Emitted x => Some x | _ => None end) es.

Definition destroyed (this : Tray) : bool := negb (non_null (tray_icon_ this)).

(** ** Sample hosts and scripted values *)

Definition sample_BalloonOptions : BalloonOptions :=
  {| icon_type := IconType_Custom; icon := None; title := ""; content := "";
     large_icon := true; no_sound := false; respect_quiet_time := false |}.

(** A host on [os] whose icon answers with fixed values. *)
Definition host_on (os : Platform) : Host :=
  {| target_os := os;
     BalloonOptions_default := sample_BalloonOptions;
     TrayIcon_GetTitle := fun _ => "title";
     TrayIcon_GetIgnoreDoubleClickEvents := fun _ => true;
     TrayIcon_GetBounds :=
       fun _ => {| r_x := 10; r_y := 20; r_width := 16; r_height := 16 |} |}.

Definition v8_undefined : V8Value :=
  {| IsNull := false; as_string := None; as_bool := Some false;
     as_NativeImage := None; as_Menu := None; as_Point := None |}.

Definition v8_null : V8Value :=
  {| IsNull := true; as_string := None; as_bool := Some false;
     as_NativeImage := None; as_Menu := None; as_Point := None |}.

Definition v8_String (s : string) : V8Value :=
  {| IsNull := false; as_string := Some s;
     as_bool := Some (negb (String.eqb s ""));
     as_NativeImage := None; as_Menu := None; as_Point := None |}.

Definition v8_Boolean (b : bool) : V8Value :=
  {| IsNull := false; as_string := None; as_bool := Some b;
     as_NativeImage := None; as_Menu := None; as_Point := None |}.

Definition v8_Menu (m : Menu) : V8Value :=
  {| IsNull := false; as_string := None; as_bool := Some true;
     as_NativeImage := None; as_Menu := Some m; as_Point := None |}.

Definition v8_Point (p : Point) : V8Value :=
  {| IsNull := false; as_string := None; as_bool := Some true;
     as_NativeImage := None; as_Menu := None; as_Point := Some p |}.

Definition v8_NativeImage (i : NativeImage) : V8Value :=
  {| IsNull := false; as_string := None; as_bool := Some true;
     as_NativeImage := Some i; as_Menu := None; as_Point := None |}.

Definition sample_image : NativeImage := {| native_image_id := 7 |}.
Definition sample_menu : Menu :=
  {| menu_wrapper_id := 3; model := {| menu_model_id := 30 |} |}.

(** A tray as the constructor leaves it, and the same tray released. *)
Definition live_tray : Tray :=
  {| tray_icon_ := Some (TrayIcon_Create None); menu_ := None |}.
Definition released_tray : Tray := {| tray_icon_ := None; menu_ := None |}.

(** ** The icon type converter *)

(** The names of the icon types, as the interface documents them. *)
Definition IconType_names : list (string * IconType) :=
  [("none", IconType_None); ("info", IconType_Info);
   ("warning", IconType_Warning); ("error", IconType_Error);
   ("custom", IconType_Custom)].

Definition IconType_named (mode : string) : option IconType :=
  (list_to_map IconType_names : gmap string IconType) !! mode.

Definition sample_options : Dictionary :=
  {[ "title" := v8_String "Backup";
     "content" := v8_String "Finished";
     "iconType" := v8_String "warning";
     "icon" := v8_NativeImage sample_image;
     "largeIcon" := v8_Boolean false ]}.

(** ** What the interface promises

    The definitions below restate the documented behaviour; the theorems
    compare them with the methods above. *)

(** *** Events *)

Definition callback_event_name (cb : Callback) : string :=
  match cb with
  | cb_OnClicked _ _ _ => "click"
  | cb_OnDoubleClicked _ _ => "double-click"
  | cb_OnRightClicked _ _ => "right-click"
  | cb_OnBalloonShow => "balloon-show"
  | cb_OnBalloonClicked => "balloon-click"
  | cb_OnBalloonClosed => "balloon-closed"
  | cb_OnDrop => "drop"
  | cb_OnDropFiles _ => "drop-files"
  | cb_OnDropText _ => "drop-text"
  | cb_OnMouseEntered _ _ => "mouse-enter"
  | cb_OnMouseExited _ _ => "mouse-leave"
  | cb_OnMouseMoved _ _ => "mouse-move"
  | cb_OnMouseUp _ _ => "mouse-up"
  | cb_OnMouseDown _ _ => "mouse-down"
  | cb_OnDragEntered => "drag-enter"
  | cb_OnDragExited => "drag-leave"
  | cb_OnDragEnded => "drag-end"
  end.

(** The parts of a callback's payload. *)
Definition callback_modifiers (cb : Callback) : option Z :=
  match cb with
  | cb_OnClicked _ _ modifiers
  | cb_OnDoubleClicked _ modifiers
  | cb_OnRightClicked _ modifiers
  | cb_OnMouseEntered _ modifiers
  | cb_OnMouseExited _ modifiers
  | cb_OnMouseMoved _ modifiers
  | cb_OnMouseUp _ modifiers
  | cb_OnMouseDown _ modifiers => Some modifiers
  | _ => None
  end.

Definition callback_bounds (cb : Callback) : option Rect :=
  match cb with
  | cb_OnClicked bounds _ _
  | cb_OnDoubleClicked bounds _
  | cb_OnRightClicked bounds _ => Some bounds
  | _ => None
  end.

Definition callback_location (cb : Callback) : option Point :=
  match cb with
  | cb_OnClicked _ location _
  | cb_OnMouseEntered location _
  | cb_OnMouseExited location _
  | cb_OnMouseMoved location _
  | cb_OnMouseUp location _
  | cb_OnMouseDown location _ => Some location
  | _ => None
  end.

Definition callback_data (cb : Callback) : option EventArg :=
  match cb with
  | cb_OnDropFiles files => Some (arg_strings files)
  | cb_OnDropText text => Some (arg_string text)
  | _ => None
  end.

(** The payload passed through: bounds, location and data, as present. *)
Definition callback_payload (cb : Callback) : list EventArg :=
  option_list (arg_Rect <$> callback_bounds cb)
    ++ option_list (arg_Point <$> callback_location cb)
    ++ option_list (callback_data cb).

(** The four families of events: click, drag, mouse and balloon. *)
Inductive EventCategory :=
| click_events | drag_events | mouse_events | balloon_events.

(** The words of an event name, separated by hyphens. *)
Fixpoint words_from (current : string) (name : string) : list string :=
  match name with
  | EmptyString => [String.rev current]
  | String c rest =>
      if Ascii.eqb c "-"%char
      then String.rev current :: words_from EmptyString rest
      else words_from (String c current) rest
  end.

Definition words (name : string) : list string := words_from EmptyString name.

(** A name is read by its first word, balloon, mouse or drag, and as a
    click when its last word says so.  Any other name is in none of the
    four families. *)
Definition event_category (name : string) : option EventCategory :=
  let ws := words name in
  match head ws with
  | Some first =>
      if String.eqb first "balloon" then Some balloon_events
      else if String.eqb first "mouse" then Some mouse_events
      else if String.eqb first "drag" then Some drag_events
      else if bool_decide (last ws = Some "click") then Some click_events
      else None
  | None => None
  end.




(** *** Methods *)

(** [destroy] and [isDestroyed] are the two methods that work on a
    released tray. *)
Definition lifecycle (m : Method) : bool :=
  match m with
  | destroy | isDestroyed => true
  | _ => false
  end.

Definition is_destroy (m : Method) : bool :=
  match m with destroy => true | _ => false end.

(** What a method returns when it gives up. *)
Definition default_return (m : Method) : Returned :=
  match m with
  | getTitle => ret_string ""
  | getIgnoreDoubleClickEvents => ret_bool false
  | getBounds => ret_Rect Rect_default
  | isDestroyed => ret_bool true
  | _ => ret_void
  end.

(** The commands that are documented as plain forwarding. *)
Definition forwarding (m : Method) : bool :=
  match m with
  | setImage _ | setPressedImage _ | setToolTip _ | setTitle _
  | removeBalloon | focus | popUpContextMenu _ | closeContextMenu
  | getBounds => true
  | _ => false
  end.

(** The menu and the position a caller passes to [popUpContextMenu]: the
    first argument read as a menu, the second as a point. *)
Definition menu_argument (args : list V8Value) : option Menu :=
  args !! 0%nat ≫= as_Menu.
Definition position_argument (args : list V8Value) : Point :=
  default Point_default (args !! 1%nat ≫= as_Point).

(** The [TrayIcon] operation a forwarding command corresponds to, with
    the caller's arguments. *)
Definition corresponding_call (host : Host) (m : Method)
  : option TrayIconCall :=
  match m with
  | setImage image => Some (TI_SetImage (ToImageType host SM_CXSMICON image))
  | setPressedImage image =>
      Some (TI_SetPressedImage (ToImageType host SM_CXSMICON image))
  | setToolTip tool_tip => Some (TI_SetToolTip tool_tip)
  | setTitle title => Some (TI_SetTitle title)
  | removeBalloon => Some TI_RemoveBalloon
  | focus => Some TI_Focus
  | popUpContextMenu args =>
      Some (TI_PopUpContextMenu (position_argument args)
              (model <$> menu_argument args))
  | closeContextMenu => Some TI_CloseContextMenu
  | getBounds => Some TI_GetBounds
  | _ => None
  end.

(** The same, with [setTitle] forwarded on macOS only. *)
Definition forwarded_calls (host : Host) (m : Method) : list TrayIconCall :=
  match m with
  | setTitle _ =>
      if defined_OS_MACOSX (target_os host)
      then option_list (corresponding_call host m)
      else []
  | _ => option_list (corresponding_call host m)
  end.

(** *** Balloons *)

(** The balloon options a dictionary describes: every field from the
    property of its name when that property converts, the default
    otherwise; the icon in the form the target takes. *)
Definition BalloonOptions_from (host : Host) (options : Dictionary)
  : BalloonOptions :=
  let d := BalloonOptions_default host in
  let large := default (large_icon d) (options !! "largeIcon" ≫= as_bool) in
  {| icon_type :=
       default (icon_type d)
         ((options !! "iconType" ≫= as_string) ≫= IconType_named);
     icon :=
       match options !! "icon" ≫= as_NativeImage with
       | Some image =>
           Some (if defined_OS_WIN (target_os host)
                 then GetHICON image (if large then SM_CXICON else SM_CXSMICON)
                 else image_of image)
       | None => icon d
       end;
     title := default (title d) (options !! "title" ≫= as_string);
     content := default (content d) (options !! "content" ≫= as_string);
     large_icon := large;
     no_sound := default (no_sound d) (options !! "noSound" ≫= as_bool);
     respect_quiet_time :=
       default (respect_quiet_time d)
         (options !! "respectQuietTime" ≫= as_bool) |}.

(** A dictionary has a property that converts to a string. *)
Definition has_string (options : Dictionary) (key : string) : bool :=
  bool_decide (is_Some (options !! key ≫= as_string)).

(** *** Scripts *)

(** The exceptions a method throws over its own arguments. *)
Definition argument_errors (m : Method) : list Exception :=
  match m with
  | displayBalloon options =>
      if has_string options "title" && has_string options "content"
      then []
      else [Error "'title' and 'content' must be defined"]
  | setContextMenu arg =>
      if IsNull arg then []
      else if non_null (as_Menu arg) then []
      else [TypeError "Must pass Menu or null"]
  | _ => []
  end.

Definition calls_destroy (script : list Method) : bool :=
  existsb is_destroy script.

(** No [tray_icon_->...] on a released icon among the effects. *)
Definition no_crash (es : list Effect) : Prop :=
  Forall (λ e, e ≠ NullDereference) es.

(** *** Sessions

    Over its lifetime a tray receives scripted calls and native callbacks,
    interleaved in any order. *)

Inductive Action :=
| scripted (m : Method)
| native (cb : Callback).

Definition act (host : Host) (a : Action) : Eff unit :=
  match a with
  | scripted m => invoke host m;; mret tt
  | native cb => deliver cb
  end.

(** The object after the actions and the effects they produced. *)
Fixpoint session (host : Host) (actions : list Action) (this : Tray)
    (past : list Effect) : Tray * list Effect :=
  match actions with
  | [] => (this, [])
  | a :: rest =>
      let '(_, this1, e) := act host a this past in
      let '(this2, es) := session host rest this1 (past ++ e) in
      (this2, e ++ es)
  end.

(** A lifetime: construction, then a session.  It ends before the object
    is destructed; [whole_life] below goes on to the destructor. *)
Definition lifetime (host : Host) (image : NativeImage) (guid : option UUID)
    (args : Arguments) (actions : list Action) : Tray * list Effect :=
  let '(this, created) := Tray_ctor host image guid args [] in
  let '(this', es) := session host actions this created in
  (this', created ++ es).

(** [Tray::~Tray() = default]: the members are destructed, which releases
    the icon when the tray still owns one and drops the menu. *)
Definition Tray_dtor : Eff unit :=
  reset_tray_icon_;;
  set_menu_ None.

(** Everything that happens from construction to destruction. *)
Definition whole_life (host : Host) (image : NativeImage)
    (guid : option UUID) (args : Arguments) (actions : list Action)
  : list Effect :=
  let '(this, es) := lifetime host image guid args actions in
  es ++ effects (Tray_dtor this es).

Definition methods_of (actions : list Action) : list Method :=
  omap (fun a => match a with scripted m => Some m | native _ => None end)
    actions.

Definition callbacks_of (actions : list Action) : list Callback :=
  omap (fun a => match a with native cb => Some cb | scripted _ => None end)
    actions.

(** The event a callback stands for. *)
Definition event_of (cb : Callback) : Emission :=
  {| event_name := callback_event_name cb;
     custom_event := CreateEventFromFlags <$> callback_modifiers cb;
     event_args := callback_payload cb |}.

(** The menu model the native icon was last given by [SetContextMenu],
    starting from [init]. *)
Definition last_context_menu (init : option MenuModel) (es : list Effect)
  : option MenuModel :=
  foldl (fun current e =>
           match e with
           | Call (TI_SetContextMenu menu_model) => menu_model
           | _ => current
           end) init es.

Definition context_menu_model (es : list Effect) : option MenuModel :=
  last_context_menu None es.

(** The calls that begin and end the life of the native icon. *)
Definition lifecycle_call (c : TrayIconCall) : bool :=
  match c with
  | TI_Create _ | TI_AddObserver | TI_delete => true
  | _ => false
  end.

(** The properties of the options dictionary that displayBalloon reads. *)
Definition balloon_keys : list string :=
  ["title"; "content"; "icon"; "iconType"; "largeIcon"; "noSound";
   "respectQuietTime"].

(** *** Outcomes

    What each scripted call comes to, on a tray that owns its icon and on
    a released one, in closed form. *)

Definition live_outcome (host : Host) (m : Method) (this : Tray)
    (past : list Effect) : Returned * Tray * list Effect :=
  let mac := defined_OS_MACOSX (target_os host) in
  match m with
  | destroy => (ret_void, released_tray, [Call TI_delete])
  | isDestroyed => (ret_bool false, this, [])
  | setImage image =>
      (ret_void, this, [Call (TI_SetImage (ToImageType host SM_CXSMICON image))])
  | setPressedImage image =>
      (ret_void, this,
       [Call (TI_SetPressedImage (ToImageType host SM_CXSMICON image))])
  | setToolTip tool_tip => (ret_void, this, [Call (TI_SetToolTip tool_tip)])
  | setTitle title =>
      (ret_void, this, if mac then [Call (TI_SetTitle title)] else [])
  | getTitle =>
      if mac
      then (ret_string (TrayIcon_GetTitle host past), this, [Call TI_GetTitle])
      else (ret_string "", this, [])
  | setIgnoreDoubleClickEvents ignore =>
      (ret_void, this,
       if mac then [Call (TI_SetIgnoreDoubleClickEvents ignore)] else [])
  | getIgnoreDoubleClickEvents =>
      if mac
      then (ret_bool (TrayIcon_GetIgnoreDoubleClickEvents host past), this,
            [Call TI_GetIgnoreDoubleClickEvents])
      else (ret_bool false, this, [])
  | displayBalloon options =>
      (ret_void, this,
       if has_string options "title" && has_string options "content"
       then [Call (TI_DisplayBalloon (BalloonOptions_from host options))]
       else [Throw (Error "'title' and 'content' must be defined")])
  | removeBalloon => (ret_void, this, [Call TI_RemoveBalloon])
  | focus => (ret_void, this, [Call TI_Focus])
  | popUpContextMenu args =>
      (ret_void, this,
       [Call (TI_PopUpContextMenu (position_argument args)
                (model <$> menu_argument args))])
  | closeContextMenu => (ret_void, this, [Call TI_CloseContextMenu])
  | setContextMenu arg =>
      if IsNull arg then
        (ret_void, {| tray_icon_ := tray_icon_ this; menu_ := None |},
         [Call (TI_SetContextMenu None)])
      else
        match as_Menu arg with
        | Some menu =>
            (ret_void, {| tray_icon_ := tray_icon_ this; menu_ := Some menu |},
             [Call (TI_SetContextMenu (Some (model menu)))])
        | None =>
            (ret_void, this, [Throw (TypeError "Must pass Menu or null")])
        end
  | getBounds =>
      (ret_Rect (TrayIcon_GetBounds host past), this, [Call TI_GetBounds])
  end.

Definition released_outcome (m : Method) (this : Tray)
  : Returned * Tray * list Effect :=
  match m with
  | destroy => (ret_void, released_tray, [])
  | isDestroyed => (ret_bool true, this, [])
  | _ => (default_return m, this, [Throw (Error "Tray is destroyed")])
  end.

Definition outcome (host : Host) (m : Method) (this : Tray)
    (past : list Effect) : Returned * Tray * list Effect :=
  if destroyed this then released_outcome m this
  else live_outcome host m this past.

(** The two methods that assign to a field of the object. *)
Definition writes_object (m : Method) : bool :=
  match m with
  | destroy | setContextMenu _ => true
  | _ => false
  end.

(** * Properties *)

Lemma IconType_named_other (mode : string) :
  mode ∉ IconType_names.*1 → IconType_named mode = None.
Proof.
  intros Hnot. unfold IconType_named.
  apply not_elem_of_list_to_map_1. exact Hnot.
Qed.

Lemma IconType_FromV8_named (val : V8Value) (out : IconType) :
  IconType_FromV8 val out =
    match as_string val ≫= IconType_named with
    | Some type => (true, type)
    | None => (false, out)
    end.
Proof.
  unfold IconType_FromV8, ConvertFromV8, FromV8, Converter_string,
    host_converter.
  destruct (as_string val) as [mode|]; simpl; [|reflexivity].
  destruct (String.eqb_spec mode "none") as [->|Hnone]; [reflexivity|].
  destruct (String.eqb_spec mode "info") as [->|Hinfo]; [reflexivity|].
  destruct (String.eqb_spec mode "warning") as [->|Hwarning]; [reflexivity|].
  destruct (String.eqb_spec mode "error") as [->|Herror]; [reflexivity|].
  destruct (String.eqb_spec mode "custom") as [->|Hcustom]; [reflexivity|].
  rewrite IconType_named_other; [reflexivity|].
  simpl. rewrite !elem_of_cons, elem_of_nil. tauto.
Qed.

(** C10.  Converting a scripted value to an icon type succeeds exactly
    when the value converts to one of the strings "none", "info",
    "warning", "error", "custom"; the result is then the icon type of that
    name, and in every other case the conversion fails and [out] keeps its
    content. *)
Theorem IconType_FromV8_five_names (val : V8Value) (out : IconType) :
  IconType_names.*1 = ["none"; "info"; "warning"; "error"; "custom"]
  ∧ IconType_names.*2 =
      [IconType_None; IconType_Info; IconType_Warning; IconType_Error;
       IconType_Custom]
  ∧ ((IconType_FromV8 val out).1 = true ↔
     ∃ mode, as_string val = Some mode ∧ mode ∈ IconType_names.*1)
  ∧ (∀ mode type, as_string val = Some mode →
       (mode, type) ∈ IconType_names →
       IconType_FromV8 val out = (true, type))
  ∧ ((¬ ∃ mode, as_string val = Some mode ∧ mode ∈ IconType_names.*1) →
       IconType_FromV8 val out = (false, out)).
Proof.
  split; [reflexivity|]. split; [reflexivity|].
  assert (∀ mode type, (mode, type) ∈ IconType_names →
            mode ∈ IconType_names.*1) as Hfst.
  { intros mode type Hin. apply list_elem_of_fmap.
    exists (mode, type). split; [reflexivity|exact Hin]. }
  assert (∀ mode type, (mode, type) ∈ IconType_names →
            IconType_named mode = Some type) as Hlookup.
  { intros mode type Hin. unfold IconType_named.
    apply elem_of_list_to_map_1; [|exact Hin].
    apply (bool_decide_unpack _). vm_compute. reflexivity. }
  assert (∀ mode, IconType_named mode = None →
            mode ∉ IconType_names.*1) as Hnone.
  { intros mode Hnamed. unfold IconType_named in Hnamed.
    by apply not_elem_of_list_to_map in Hnamed. }
  assert (∀ mode type, IconType_named mode = Some type →
            (mode, type) ∈ IconType_names) as Hsome.
  { intros mode type Hnamed. unfold IconType_named in Hnamed.
    by apply elem_of_list_to_map_2 in Hnamed. }
  rewrite IconType_FromV8_named.
  remember (IconType_names.*1) as names eqn:Hnames.
  destruct (as_string val) as [mode|] eqn:Hmode; simpl.
  - destruct (IconType_named mode) as [type|] eqn:Hnamed; simpl.
    + split; [|split].
      * split; [|reflexivity]. intros _. exists mode. eauto.
      * intros mode' type' [= <-] Hin. apply Hlookup in Hin. congruence.
      * intros Hno. exfalso. apply Hno. exists mode. eauto.
    + apply Hnone in Hnamed.
      split; [|split].
      * split; [discriminate|]. intros (mode' & [= <-] & Hin). contradiction.
      * intros mode' type' [= <-] Hin. exfalso. eauto.
      * reflexivity.
  - split; [|split].
    + split; [discriminate|]. intros (mode & [=] & _).
    + intros mode type [=].
    + reflexivity.
Qed.

Example IconType_FromV8_info :
  IconType_FromV8 (v8_String "info") IconType_Custom = (true, IconType_Info).
Proof. reflexivity. Qed.

Example IconType_FromV8_case_matters :
  IconType_FromV8 (v8_String "Info") IconType_Custom = (false, IconType_Custom).
Proof. reflexivity. Qed.

Example IconType_FromV8_not_a_string :
  IconType_FromV8 (v8_Boolean true) IconType_Warning
  = (false, IconType_Warning).
Proof. reflexivity. Qed.

(** ** Callbacks *)

(** C2.  Every observer callback emits exactly one scripted event and does
    nothing else: the event has the name fixed for that callback, carries
    the event object built from the modifier flags when the callback has
    flags, and passes the callback's bounds, location and data through. *)
Theorem callback_emits_one_event
    (cb : Callback) (this : Tray) (past : list Effect) :
  deliver cb this past =
    (tt, this,
     [Emitted {| event_name := callback_event_name cb;
                 custom_event := CreateEventFromFlags <$> callback_modifiers cb;
                 event_args := callback_payload cb |}]).
Proof. destruct cb; reflexivity. Qed.

Example OnClicked_emits_click (bounds : Rect) (location : Point) (flags : Z) :
  effects (OnClicked bounds location flags released_tray []) =
    [Emitted {| event_name := "click";
                custom_event := Some (CreateEventFromFlags flags);
                event_args := [arg_Rect bounds; arg_Point location] |}].
Proof. reflexivity. Qed.

Example OnDropFiles_emits_drop_files (files : list string) :
  emitted (effects (deliver (cb_OnDropFiles files) live_tray [])) =
    [{| event_name := "drop-files"; custom_event := None;
        event_args := [arg_strings files] |}].
Proof. reflexivity. Qed.

Example event_category_unknown : event_category "show-balloon" = None.
Proof. reflexivity. Qed.

Example event_category_balloon_click :
  event_category "balloon-click" = Some balloon_events.
Proof. reflexivity. Qed.



(** ** A released tray *)

Lemma Destroy_releases (this : Tray) (past : list Effect) :
  this_after (Destroy this past) = released_tray.
Proof. reflexivity. Qed.

(** C3.  Once [destroy] has run, every method other than [destroy] and
    [isDestroyed] throws "Tray is destroyed", reaches no [TrayIcon]
    operation, leaves the object as it is and returns the default of its
    type; [isDestroyed] answers true and a second [destroy] does nothing
    and throws nothing. *)
Theorem released_tray_refuses
    (host : Host) (m : Method) (this0 : Tray) (past0 past : list Effect) :
  lifecycle m = false →
  let this := this_after (Destroy this0 past0) in
  invoke host m this past =
    (default_return m, this, [Throw (Error "Tray is destroyed")])
  ∧ invoke host isDestroyed this past = (ret_bool true, this, [])
  ∧ invoke host destroy this past = (ret_void, this, []).
Proof.
  intros Hm this. subst this. rewrite Destroy_releases.
  split; [|split; reflexivity].
  destruct m; try discriminate Hm; reflexivity.
Qed.

Lemma released_tray_refuses_witness :
  invoke (host_on OS_MACOSX) getTitle released_tray [] =
    (ret_string "", released_tray, [Throw (Error "Tray is destroyed")]).
Proof.
  exact (proj1 (released_tray_refuses (host_on OS_MACOSX) getTitle live_tray
                  [] [] eq_refl)).
Defined.

(** ** Forwarding commands *)

Lemma PopUpContextMenu_live (args : list V8Value) (icon : TrayIcon)
    (menu : option Menu) (past : list Effect) :
  let this := {| tray_icon_ := Some icon; menu_ := menu |} in
  PopUpContextMenu (Arguments_of args) this past =
    (tt, this,
     [Call (TI_PopUpContextMenu (position_argument args)
              (model <$> menu_argument args))]).
Proof.
  unfold PopUpContextMenu, position_argument, menu_argument, GetNext,
    ConvertFromV8, FromV8, Converter_Handle_Menu, Converter_Point,
    host_converter.
  destruct args as [|first [|second rest]]; cbn; [reflexivity| |].
  - destruct (as_Menu first); reflexivity.
  - destruct (as_Menu first); cbn; destruct (as_Point second); reflexivity.
Qed.

(** C1, as the code has it.  On a tray that is not destroyed, each of
    setImage, setPressedImage, setToolTip, removeBalloon, focus,
    popUpContextMenu, closeContextMenu and getBounds produces exactly one
    effect, the call of the corresponding [TrayIcon] operation with the
    caller's arguments (the image in the form the target takes, the
    position and the model of the menu read from the arguments), and
    getBounds returns the icon's answer.  setTitle does the same when built
    for macOS and produces no effect at all on any other target.  None of
    them changes the object. *)
Theorem forwarding_commands
    (host : Host) (m : Method) (this : Tray) (past : list Effect) :
  destroyed this = false →
  forwarding m = true →
  this_after (invoke host m this past) = this
  ∧ effects (invoke host m this past) = Call <$> forwarded_calls host m
  ∧ (∀ title, m = setTitle title →
       forwarded_calls host m =
         if defined_OS_MACOSX (target_os host) then [TI_SetTitle title] else [])
  ∧ ((∀ title, m ≠ setTitle title) →
       ∃ c, corresponding_call host m = Some c ∧ forwarded_calls host m = [c])
  ∧ (m = getBounds →
       result (invoke host m this past) = ret_Rect (TrayIcon_GetBounds host past)).
Proof.
  intros Hlive Hm. destruct this as [[icon|] menu]; [|discriminate Hlive].
  assert (∀ c, corresponding_call host m = Some c →
               forwarded_calls host m = [c] →
               ∃ c', corresponding_call host m = Some c'
                     ∧ forwarded_calls host m = [c']) as Hex by eauto.
  destruct m; try discriminate Hm;
    try (split; [reflexivity|]; split; [reflexivity|];
         split; [intros ? [=]|]; split; [intros _; eapply Hex; reflexivity|];
         first [intros _; cbv -[app]; rewrite !app_nil_r; reflexivity | intros [=]]).
  - unfold invoke, returning, SetTitle, forwarded_calls. simpl.
    destruct (defined_OS_MACOSX (target_os host));
      (split; [reflexivity|]; split; [reflexivity|];
       split; [intros ? [= <-]; reflexivity|]; split; [|intros [=]];
       intros Hne; exfalso; eapply Hne; reflexivity).
  - pose proof (PopUpContextMenu_live args icon menu past) as Hpop.
    simpl in Hpop. unfold invoke, returning, mbind, Eff_bind, eff_bind.
    rewrite Hpop.
    split; [reflexivity|]. split; [reflexivity|].
    split; [intros ? [=]|]. split; [intros _; eapply Hex; reflexivity|].
    intros [=].
Qed.

Lemma forwarding_commands_witness :
  effects (invoke (host_on OS_WIN) (setImage sample_image) live_tray []) =
    [Call (TI_SetImage (GetHICON sample_image SM_CXSMICON))].
Proof.
  exact (proj1 (proj2 (forwarding_commands (host_on OS_WIN)
                         (setImage sample_image) live_tray []
                         eq_refl eq_refl))).
Defined.

(** C1 as stated fails for setTitle: built for Linux, setTitle on a live
    tray reaches no [TrayIcon] operation, although the operation it
    corresponds to is [SetTitle]. *)
Lemma setTitle_is_not_forwarded_off_mac :
  destroyed live_tray = false
  ∧ forwarding (setTitle "status") = true
  ∧ corresponding_call (host_on OS_LINUX) (setTitle "status")
    = Some (TI_SetTitle "status")
  ∧ calls (effects (invoke (host_on OS_LINUX) (setTitle "status")
                      live_tray [])) = []
  ∧ calls (effects (invoke (host_on OS_LINUX) (setTitle "status")
                      live_tray [])) ≠ [TI_SetTitle "status"].
Proof. repeat split; discriminate. Qed.

Example popUpContextMenu_reads_menu_then_position :
  calls (effects (invoke (host_on OS_LINUX)
                    (popUpContextMenu
                       [v8_Menu sample_menu;
                        v8_Point {| pt_x := 4; pt_y := 5 |}])
                    live_tray [])) =
    [TI_PopUpContextMenu {| pt_x := 4; pt_y := 5 |} (Some (model sample_menu))].
Proof. reflexivity. Qed.

Example popUpContextMenu_position_only :
  calls (effects (invoke (host_on OS_LINUX)
                    (popUpContextMenu
                       [v8_undefined; v8_Point {| pt_x := 4; pt_y := 5 |}])
                    live_tray [])) =
    [TI_PopUpContextMenu {| pt_x := 4; pt_y := 5 |} None].
Proof. reflexivity. Qed.

Example popUpContextMenu_without_arguments :
  calls (effects (invoke (host_on OS_LINUX) (popUpContextMenu [])
                    live_tray [])) =
    [TI_PopUpContextMenu Point_default None].
Proof. reflexivity. Qed.

(** ** The context menu *)

Lemma SetContextMenu_live (arg : V8Value) (icon : TrayIcon)
    (menu : option Menu) (past : list Effect) :
  SetContextMenu arg {| tray_icon_ := Some icon; menu_ := menu |} past =
    if IsNull arg then
      (tt, {| tray_icon_ := Some icon; menu_ := None |},
       [Call (TI_SetContextMenu None)])
    else
      match as_Menu arg with
      | Some menu' =>
          (tt, {| tray_icon_ := Some icon; menu_ := Some menu' |},
           [Call (TI_SetContextMenu (Some (model menu')))])
      | None =>
          (tt, {| tray_icon_ := Some icon; menu_ := menu |},
           [Throw (TypeError "Must pass Menu or null")])
      end.
Proof.
  unfold SetContextMenu, ConvertFromV8, FromV8, Converter_Handle_Menu,
    host_converter.
  cbn. destruct (IsNull arg); [reflexivity|].
  destruct (as_Menu arg); reflexivity.
Qed.

(** C5.  On a tray that is not destroyed, setContextMenu goes by its
    argument: null clears the stored menu and calls
    [SetContextMenu(nullptr)]; a menu is stored and its model is handed to
    [SetContextMenu]; anything else throws the type error
    "Must pass Menu or null", reaches no [TrayIcon] operation and leaves
    the stored menu as it was. *)
Theorem SetContextMenu_by_case
    (arg : V8Value) (this : Tray) (past : list Effect) :
  destroyed this = false →
  SetContextMenu arg this past =
    if IsNull arg then
      (tt, {| tray_icon_ := tray_icon_ this; menu_ := None |},
       [Call (TI_SetContextMenu None)])
    else
      match as_Menu arg with
      | Some menu =>
          (tt, {| tray_icon_ := tray_icon_ this; menu_ := Some menu |},
           [Call (TI_SetContextMenu (Some (model menu)))])
      | None => (tt, this, [Throw (TypeError "Must pass Menu or null")])
      end.
Proof.
  intros Hlive. destruct this as [[icon|] menu]; [|discriminate Hlive].
  apply SetContextMenu_live.
Qed.

Lemma SetContextMenu_by_case_witness :
  SetContextMenu (v8_Menu sample_menu) live_tray [] =
    (tt, {| tray_icon_ := tray_icon_ live_tray; menu_ := Some sample_menu |},
     [Call (TI_SetContextMenu (Some (model sample_menu)))]).
Proof. exact (SetContextMenu_by_case (v8_Menu sample_menu) live_tray [] eq_refl). Defined.

Example SetContextMenu_null_clears :
  SetContextMenu v8_null
    {| tray_icon_ := Some (TrayIcon_Create None); menu_ := Some sample_menu |}
    [] = (tt, live_tray, [Call (TI_SetContextMenu None)]).
Proof. reflexivity. Qed.

Example SetContextMenu_rejects_a_string :
  SetContextMenu (v8_String "menu")
    {| tray_icon_ := Some (TrayIcon_Create None); menu_ := Some sample_menu |}
    [] =
    (tt,
     {| tray_icon_ := Some (TrayIcon_Create None); menu_ := Some sample_menu |},
     [Throw (TypeError "Must pass Menu or null")]).
Proof. reflexivity. Qed.

(** ** Balloons *)

Lemma Dictionary_Get_host_converter {T} (view : V8Value → option T)
    (options : Dictionary) (key : string) (out : T) :
  @Dictionary_Get T (host_converter view) options key out =
    match options !! key ≫= view with
    | Some v => (true, v)
    | None => (false, out)
    end.
Proof.
  unfold Dictionary_Get, ConvertFromV8, FromV8, host_converter.
  destruct (options !! key) as [value|]; reflexivity.
Qed.

Lemma Dictionary_Get_IconType (options : Dictionary) (key : string)
    (out : IconType) :
  Dictionary_Get options key out =
    match (options !! key ≫= as_string) ≫= IconType_named with
    | Some type => (true, type)
    | None => (false, out)
    end.
Proof.
  unfold Dictionary_Get, ConvertFromV8, FromV8, Converter_IconType.
  destruct (options !! key) as [value|]; [|reflexivity].
  apply IconType_FromV8_named.
Qed.

Lemma fill_balloon_options_from (host : Host) (options : Dictionary)
    (title content : string) :
  options !! "title" ≫= as_string = Some title →
  options !! "content" ≫= as_string = Some content →
  fill_balloon_options host options title content
  = BalloonOptions_from host options.
Proof.
  intros Htitle Hcontent. unfold fill_balloon_options, BalloonOptions_from.
  unfold Converter_bool, Converter_Handle_NativeImage.
  rewrite !Dictionary_Get_host_converter, Dictionary_Get_IconType.
  rewrite Htitle, Hcontent. unfold ToImageType.
  destruct (options !! "largeIcon" ≫= as_bool) as [large|];
    destruct (options !! "noSound" ≫= as_bool) as [quiet|];
    destruct (options !! "respectQuietTime" ≫= as_bool) as [respect|];
    destruct ((options !! "iconType" ≫= as_string) ≫= IconType_named)
      as [type|];
    destruct (options !! "icon") as [value|]; simpl;
    try destruct (as_NativeImage value) as [image|]; reflexivity.
Qed.

Lemma DisplayBalloon_live (host : Host) (options : Dictionary)
    (icon : TrayIcon) (menu : option Menu) (past : list Effect) :
  DisplayBalloon host options {| tray_icon_ := Some icon; menu_ := menu |} past
  = (tt, {| tray_icon_ := Some icon; menu_ := menu |},
     if has_string options "title" && has_string options "content"
     then [Call (TI_DisplayBalloon (BalloonOptions_from host options))]
     else [Throw (Error "'title' and 'content' must be defined")]).
Proof.
  unfold DisplayBalloon, has_string, Converter_string.
  cbn -[Dictionary_Get BalloonOptions_from fill_balloon_options].
  rewrite Dictionary_Get_host_converter.
  destruct (options !! "title" ≫= as_string) as [title|] eqn:Htitle;
    [|reflexivity].
  cbn -[Dictionary_Get BalloonOptions_from fill_balloon_options].
  rewrite Dictionary_Get_host_converter.
  destruct (options !! "content" ≫= as_string) as [content|] eqn:Hcontent;
    [|reflexivity].
  cbn -[BalloonOptions_from fill_balloon_options lookup].
  rewrite (fill_balloon_options_from _ _ _ _ Htitle Hcontent).
  reflexivity.
Qed.

(** C4.  On a tray that is not destroyed, displayBalloon throws
    "'title' and 'content' must be defined" and makes no
    [DisplayBalloon] call exactly when the dictionary lacks a title or a
    content that converts to a string; otherwise it calls
    [DisplayBalloon] once, with the options the dictionary describes, and
    throws nothing.  The object is left as it was either way. *)
Theorem DisplayBalloon_needs_title_and_content
    (host : Host) (options : Dictionary) (this : Tray) (past : list Effect) :
  destroyed this = false →
  let r := DisplayBalloon host options this past in
  let lacking :=
    negb (has_string options "title" && has_string options "content") in
  this_after r = this
  ∧ effects r =
      (if lacking
       then [Throw (Error "'title' and 'content' must be defined")]
       else [Call (TI_DisplayBalloon (BalloonOptions_from host options))])
  ∧ (thrown (effects r) = [Error "'title' and 'content' must be defined"]
     ∧ calls (effects r) = []
     ↔ lacking = true).
Proof.
  intros Hlive r lacking. subst r lacking.
  destruct this as [[icon|] menu]; [|discriminate Hlive].
  rewrite DisplayBalloon_live.
  destruct (has_string options "title" && has_string options "content");
    simpl; (split; [reflexivity|]; split; [reflexivity|]).
  - split; [intros [[=] _]|intros [=]].
  - split; [reflexivity|split; reflexivity].
Qed.

Lemma DisplayBalloon_needs_title_and_content_witness :
  effects (DisplayBalloon (host_on OS_WIN) sample_options live_tray []) =
    [Call (TI_DisplayBalloon
             {| icon_type := IconType_Warning;
                icon := Some (GetHICON sample_image SM_CXSMICON);
                title := "Backup"; content := "Finished";
                large_icon := false; no_sound := false;
                respect_quiet_time := false |})].
Proof.
  exact (proj1 (proj2 (DisplayBalloon_needs_title_and_content
                         (host_on OS_WIN) sample_options live_tray []
                         eq_refl))).
Defined.

Example DisplayBalloon_without_content :
  DisplayBalloon (host_on OS_LINUX) {[ "title" := v8_String "Backup" ]}
    live_tray [] =
    (tt, live_tray, [Throw (Error "'title' and 'content' must be defined")]).
Proof. vm_compute. reflexivity. Qed.

Example DisplayBalloon_title_not_a_string :
  effects (DisplayBalloon (host_on OS_LINUX)
             {[ "title" := v8_Boolean true; "content" := v8_String "x" ]}
             live_tray []) =
    [Throw (Error "'title' and 'content' must be defined")].
Proof. vm_compute. reflexivity. Qed.

(** ** Scripts *)

Lemma invoke_released (host : Host) (m : Method) (menu : option Menu)
    (past : list Effect) :
  lifecycle m = false →
  invoke host m {| tray_icon_ := None; menu_ := menu |} past =
    (default_return m, {| tray_icon_ := None; menu_ := menu |},
     [Throw (Error "Tray is destroyed")]).
Proof. intros Hm. destruct m; try discriminate Hm; reflexivity. Qed.

Lemma invoke_live (host : Host) (m : Method) (icon : TrayIcon)
    (menu : option Menu) (past : list Effect) :
  let r := invoke host m {| tray_icon_ := Some icon; menu_ := menu |} past in
  tray_icon_ (this_after r) = (if is_destroy m then None else Some icon)
  ∧ no_crash (effects r)
  ∧ thrown (effects r) = argument_errors m.
Proof.
  unfold no_crash.
  destruct m; simpl;
    try (split; [reflexivity|]; split; [|reflexivity];
         cbv; repeat constructor; discriminate).
  - unfold returning, SetTitle. simpl.
    destruct (defined_OS_MACOSX (target_os host));
      (split; [reflexivity|]; split; [|reflexivity]);
      cbv; repeat constructor; discriminate.
  - unfold returning, GetTitle. simpl.
    destruct (defined_OS_MACOSX (target_os host));
      (split; [reflexivity|]; split; [|reflexivity]);
      cbv; repeat constructor; discriminate.
  - unfold returning, SetIgnoreDoubleClickEvents. simpl.
    destruct (defined_OS_MACOSX (target_os host));
      (split; [reflexivity|]; split; [|reflexivity]);
      cbv; repeat constructor; discriminate.
  - unfold returning, GetIgnoreDoubleClickEvents. simpl.
    destruct (defined_OS_MACOSX (target_os host));
      (split; [reflexivity|]; split; [|reflexivity]);
      cbv; repeat constructor; discriminate.
  - unfold returning, mbind, Eff_bind, eff_bind.
    rewrite DisplayBalloon_live.
    destruct (has_string options "title" && has_string options "content");
      (split; [reflexivity|]; split; [|reflexivity]);
      repeat constructor; discriminate.
  - pose proof (PopUpContextMenu_live args icon menu past) as Hpop.
    simpl in Hpop. unfold returning, mbind, Eff_bind, eff_bind. rewrite Hpop.
    split; [reflexivity|]. split; [|reflexivity].
    repeat constructor; discriminate.
  - unfold returning, mbind, Eff_bind, eff_bind.
    rewrite SetContextMenu_live.
    destruct (IsNull arg); [|destruct (as_Menu arg)];
      (split; [reflexivity|]; split; [|reflexivity]);
      repeat constructor; discriminate.
Qed.

Lemma destroyed_invoke (host : Host) (m : Method) (this : Tray)
    (past : list Effect) :
  destroyed (this_after (invoke host m this past))
  = destroyed this || is_destroy m.
Proof.
  destruct this as [[icon|] menu].
  - destruct (invoke_live host m icon menu past) as (Hicon & _ & _).
    unfold destroyed. rewrite Hicon. destruct (is_destroy m); reflexivity.
  - destruct (lifecycle m) eqn:Hm.
    + destruct m; try discriminate Hm; reflexivity.
    + rewrite invoke_released by exact Hm. reflexivity.
Qed.

Lemma thrown_invoke (host : Host) (m : Method) (this : Tray)
    (past : list Effect) :
  thrown (effects (invoke host m this past)) =
    if destroyed this
    then if lifecycle m then [] else [Error "Tray is destroyed"]
    else argument_errors m.
Proof.
  destruct this as [[icon|] menu].
  - destruct (invoke_live host m icon menu past) as (_ & _ & Hthrown).
    exact Hthrown.
  - destruct (lifecycle m) eqn:Hm.
    + destruct m; try discriminate Hm; reflexivity.
    + rewrite invoke_released by exact Hm. reflexivity.
Qed.

Lemma no_crash_invoke (host : Host) (m : Method) (this : Tray)
    (past : list Effect) :
  no_crash (effects (invoke host m this past)).
Proof.
  destruct this as [[icon|] menu].
  - destruct (invoke_live host m icon menu past) as (_ & Hsafe & _).
    exact Hsafe.
  - destruct (lifecycle m) eqn:Hm.
    + destruct m; try discriminate Hm; cbv; repeat constructor; discriminate.
    + rewrite invoke_released by exact Hm.
      repeat constructor; discriminate.
Qed.

Lemma destroyed_run (host : Host) (script : list Method) :
  ∀ (this : Tray) (past : list Effect),
    destroyed (run host script this past).1
    = destroyed this || calls_destroy script.
Proof.
  induction script as [|m rest IH]; intros this past; simpl.
  - rewrite orb_false_r. reflexivity.
  - pose proof (destroyed_invoke host m this past) as Hstep.
    destruct (invoke host m this past) as [[r this'] e].
    rewrite IH. unfold this_after in Hstep. simpl in Hstep.
    rewrite Hstep, orb_assoc. reflexivity.
Qed.

(** ** Construction *)

(** C6.  Constructing a tray makes three calls, in this order and no
    other: [TrayIcon::Create] with the guid given, [SetImage] with the
    initial image, [AddObserver].  The tray owns the created icon, and
    after any script it is destroyed exactly when the script called
    destroy. *)
Theorem Tray_ctor_creates_and_observes
    (host : Host) (image : NativeImage) (guid : option UUID)
    (args : Arguments) (past : list Effect) :
  let r := Tray_ctor host image guid args past in
  r.2 = [Call (TI_Create guid);
         Call (TI_SetImage (ToImageType host SM_CXSMICON image));
         Call TI_AddObserver]
  ∧ tray_icon_ r.1 = Some (TrayIcon_Create guid)
  ∧ menu_ r.1 = None
  ∧ destroyed r.1 = false
  ∧ (∀ script past',
       destroyed (run host script r.1 past').1 = calls_destroy script).
Proof.
  simpl. repeat (split; [reflexivity|]).
  intros script past'. rewrite destroyed_run. reflexivity.
Qed.

Example Tray_ctor_then_script :
  let t := (Tray_ctor (host_on OS_LINUX) sample_image None (Arguments_of []) []).1 in
  destroyed (run (host_on OS_LINUX)
               [setToolTip "a"; setContextMenu v8_null; getBounds] t []).1 = false
  ∧ destroyed (run (host_on OS_LINUX) [setToolTip "a"; destroy] t []).1 = true.
Proof. split; reflexivity. Qed.

(** C7.  createTray throws "Cannot create Tray before app is ready" and
    returns an empty handle when the browser is not ready, with no effect
    besides the exception; built for Windows and ready, it throws
    "Invalid GUID format" and returns an empty handle when no guid was
    converted although more than one argument was passed; in every other
    case it returns the tray the constructor builds, with the constructor's
    effects. *)
Theorem New_checks_then_constructs
    (host : Host) (is_ready : bool) (image : NativeImage)
    (guid : option UUID) (args : Arguments) (past : list Effect) :
  let r := New host is_ready image guid args past in
  let invalid_guid :=
    defined_OS_WIN (target_os host) && bool_decide (guid = None)
    && bool_decide (1 < Length args)%nat in
  (is_ready = false →
     r = (None, [Throw (Error "Cannot create Tray before app is ready")]))
  ∧ (is_ready = true → invalid_guid = true →
     r = (None, [Throw (Error "Invalid GUID format")]))
  ∧ (is_ready = true → invalid_guid = false →
     r = (Some (Tray_ctor host image guid args past).1,
          (Tray_ctor host image guid args past).2)
     ∧ thrown r.2 = []).
Proof.
  simpl. unfold New.
  assert (bool_decide (guid = None) = negb (non_null guid)) as ->
    by (destruct guid; reflexivity).
  assert (bool_decide (1 < Length args)%nat = (1 <? Length args)%nat) as ->.
  { destruct (Nat.ltb_spec 1 (Length args));
      [apply bool_decide_eq_true_2|apply bool_decide_eq_false_2]; lia. }
  rewrite <- andb_assoc.
  split; [|split].
  - intros ->. reflexivity.
  - intros -> ->. reflexivity.
  - intros -> ->. simpl. split; [reflexivity|].
    destruct (defined_OS_WIN (target_os host)); reflexivity.
Qed.

Example New_before_ready :
  New (host_on OS_MACOSX) false sample_image None (Arguments_of []) [] =
    (None, [Throw (Error "Cannot create Tray before app is ready")]).
Proof. reflexivity. Qed.

Example New_with_a_bad_guid_on_windows :
  New (host_on OS_WIN) true sample_image None
    (Arguments_of [v8_NativeImage sample_image; v8_String "not-a-guid"]) [] =
    (None, [Throw (Error "Invalid GUID format")]).
Proof. reflexivity. Qed.

Example New_with_a_bad_guid_elsewhere :
  calls (New (host_on OS_MACOSX) true sample_image None
           (Arguments_of [v8_NativeImage sample_image; v8_String "not-a-guid"])
           []).2 =
    [TI_Create None; TI_SetImage (image_of sample_image); TI_AddObserver].
Proof. reflexivity. Qed.

(** ** Order of calls *)

(** C8, as the code has it.  Whether a method throws after a script
    depends on the script only through whether it called destroy: two
    scripts that agree on that make the method throw the same exceptions.
    After a script without destroy on a live tray the method throws only
    over its own arguments; after a script with destroy every method but
    destroy and isDestroyed throws "Tray is destroyed".  No script leads a
    method to use a released icon. *)
Theorem failure_depends_only_on_destroy
    (host : Host) (script1 script2 : list Method) (m : Method)
    (this : Tray) (past : list Effect) :
  calls_destroy script1 = calls_destroy script2 →
  let r1 := run host script1 this past in
  let r2 := run host script2 this past in
  thrown (effects (invoke host m r1.1 r1.2))
  = thrown (effects (invoke host m r2.1 r2.2))
  ∧ (destroyed this = false → calls_destroy script1 = false →
     thrown (effects (invoke host m r1.1 r1.2)) = argument_errors m)
  ∧ (calls_destroy script1 = true →
     thrown (effects (invoke host m r1.1 r1.2)) =
       if lifecycle m then [] else [Error "Tray is destroyed"])
  ∧ no_crash (effects (invoke host m r1.1 r1.2)).
Proof.
  intros Hsame r1 r2. subst r1 r2.
  rewrite !thrown_invoke, !destroyed_run, Hsame.
  split; [reflexivity|]. split; [|split; [|apply no_crash_invoke]].
  - intros -> Hnone. rewrite Hnone. reflexivity.
  - intros Hdestroy. rewrite Hdestroy, orb_true_r. reflexivity.
Qed.

Lemma failure_depends_only_on_destroy_witness :
  thrown (effects (invoke (host_on OS_LINUX) (setContextMenu (v8_String "m"))
                     (run (host_on OS_LINUX) [setToolTip "a"; focus]
                        live_tray []).1
                     (run (host_on OS_LINUX) [setToolTip "a"; focus]
                        live_tray []).2))
  = thrown (effects (invoke (host_on OS_LINUX) (setContextMenu (v8_String "m"))
                       (run (host_on OS_LINUX) [] live_tray []).1
                       (run (host_on OS_LINUX) [] live_tray []).2)).
Proof.
  exact (proj1 (failure_depends_only_on_destroy (host_on OS_LINUX)
                  [setToolTip "a"; focus] [] (setContextMenu (v8_String "m"))
                  live_tray [] eq_refl)).
Defined.

(** C8 as stated fails: on a live tray setToolTip throws nothing, and the
    same call after destroy throws "Tray is destroyed". *)
Lemma setToolTip_fails_after_destroy :
  thrown (effects (invoke (host_on OS_LINUX) (setToolTip "tip")
                     live_tray [])) = []
  ∧ thrown (effects (invoke (host_on OS_LINUX) (setToolTip "tip")
                       (run (host_on OS_LINUX) [destroy] live_tray []).1
                       (run (host_on OS_LINUX) [destroy] live_tray []).2))
    = [Error "Tray is destroyed"].
Proof. split; reflexivity. Qed.

(** * Further properties *)

(** ** Every call in closed form *)

Lemma invoke_outcome (host : Host) (m : Method) (this : Tray)
    (past : list Effect) :
  invoke host m this past = outcome host m this past.
Proof.
  unfold outcome. destruct this as [[icon|] menu]; simpl.
  - destruct m; simpl; try reflexivity.
    + unfold returning, SetTitle. simpl.
      destruct (defined_OS_MACOSX (target_os host)); reflexivity.
    + unfold returning, GetTitle. simpl.
      destruct (defined_OS_MACOSX (target_os host)); cbv -[app];
        rewrite ?app_nil_r; reflexivity.
    + unfold returning, SetIgnoreDoubleClickEvents. simpl.
      destruct (defined_OS_MACOSX (target_os host)); reflexivity.
    + unfold returning, GetIgnoreDoubleClickEvents. simpl.
      destruct (defined_OS_MACOSX (target_os host)); cbv -[app];
        rewrite ?app_nil_r; reflexivity.
    + unfold returning, mbind, Eff_bind, eff_bind.
      rewrite DisplayBalloon_live.
      destruct (has_string options "title" && has_string options "content");
        reflexivity.
    + pose proof (PopUpContextMenu_live args icon menu past) as Hpop.
      simpl in Hpop. unfold returning, mbind, Eff_bind, eff_bind.
      rewrite Hpop. reflexivity.
    + unfold returning, mbind, Eff_bind, eff_bind.
      rewrite SetContextMenu_live.
      destruct (IsNull arg); [|destruct (as_Menu arg)]; reflexivity.
    + cbv -[app]. rewrite app_nil_r. reflexivity.
  - destruct m; reflexivity.
Qed.

Lemma deliver_event_of (cb : Callback) (this : Tray) (past : list Effect) :
  deliver cb this past = (tt, this, [Emitted (event_of cb)]).
Proof. destruct cb; reflexivity. Qed.

Lemma act_outcome (host : Host) (a : Action) (this : Tray)
    (past : list Effect) :
  act host a this past =
    match a with
    | scripted m =>
        (tt, this_after (outcome host m this past),
         effects (outcome host m this past))
    | native cb => (tt, this, [Emitted (event_of cb)])
    end.
Proof.
  destruct a as [m|cb]; [|apply deliver_event_of].
  unfold act, mbind, Eff_bind, eff_bind. rewrite invoke_outcome.
  destruct (outcome host m this past) as [[r this'] e]. simpl.
  rewrite app_nil_r. reflexivity.
Qed.

(** ** Single calls *)

(** X1.  On a tray that is not destroyed, the title and the
    double-click setting exist on macOS only.  Built for macOS, getTitle
    and getIgnoreDoubleClickEvents return the native icon's answer and
    setIgnoreDoubleClickEvents hands its argument on, each with exactly
    one call; built for any other target, getTitle returns the empty
    string, getIgnoreDoubleClickEvents returns false and
    setIgnoreDoubleClickEvents does nothing, all without reaching the
    icon. *)
Theorem title_and_double_click_by_target
    (host : Host) (this : Tray) (past : list Effect) :
  destroyed this = false →
  GetTitle host this past =
    (if defined_OS_MACOSX (target_os host)
     then (TrayIcon_GetTitle host past, this, [Call TI_GetTitle])
     else ("", this, []))
  ∧ GetIgnoreDoubleClickEvents host this past =
      (if defined_OS_MACOSX (target_os host)
       then (TrayIcon_GetIgnoreDoubleClickEvents host past, this,
             [Call TI_GetIgnoreDoubleClickEvents])
       else (false, this, []))
  ∧ ∀ ignore,
      SetIgnoreDoubleClickEvents host ignore this past =
        (tt, this,
         if defined_OS_MACOSX (target_os host)
         then [Call (TI_SetIgnoreDoubleClickEvents ignore)]
         else []).
Proof.
  intros Hlive. destruct this as [[icon|] menu]; [|discriminate Hlive].
  unfold GetTitle, GetIgnoreDoubleClickEvents, SetIgnoreDoubleClickEvents.
  destruct (defined_OS_MACOSX (target_os host));
    (split; [|split; [|intros ignore]]);
    cbv -[app]; rewrite ?app_nil_r; reflexivity.
Qed.

Lemma title_and_double_click_by_target_witness :
  GetTitle (host_on OS_WIN) live_tray [] = ("", live_tray, []).
Proof.
  exact (proj1 (title_and_double_click_by_target (host_on OS_WIN) live_tray []
                  eq_refl)).
Defined.

(** X2.  A scripted call that throws has done nothing else: it threw
    exactly one exception, reached no [TrayIcon] operation, left the
    object as it was and returned the default of its type. *)
Theorem a_throwing_call_changes_nothing
    (host : Host) (m : Method) (this : Tray) (past : list Effect) :
  thrown (effects (invoke host m this past)) ≠ [] →
  this_after (invoke host m this past) = this
  ∧ calls (effects (invoke host m this past)) = []
  ∧ result (invoke host m this past) = default_return m
  ∧ ∃ x, effects (invoke host m this past) = [Throw x].
Proof.
  rewrite invoke_outcome. unfold outcome. intros Hthrown.
  destruct (destroyed this); destruct m; simpl in *;
    repeat (case_match; simpl in * );
    try (exfalso; apply Hthrown; reflexivity);
    (split; [reflexivity|]; split; [reflexivity|]; split; [reflexivity|]);
    eexists; reflexivity.
Qed.

Lemma a_throwing_call_changes_nothing_witness :
  this_after (invoke (host_on OS_LINUX) (setContextMenu (v8_String "menu"))
                {| tray_icon_ := Some (TrayIcon_Create None);
                   menu_ := Some sample_menu |} [])
  = {| tray_icon_ := Some (TrayIcon_Create None); menu_ := Some sample_menu |}.
Proof.
  refine (proj1 (a_throwing_call_changes_nothing (host_on OS_LINUX)
                   (setContextMenu (v8_String "menu"))
                   {| tray_icon_ := Some (TrayIcon_Create None);
                      menu_ := Some sample_menu |} [] _)).
  vm_compute. discriminate.
Defined.

Lemma invoke_emits_nothing (host : Host) (m : Method) (this : Tray)
    (past : list Effect) :
  emitted (effects (invoke host m this past)) = [].
Proof.
  rewrite invoke_outcome. unfold outcome.
  destruct (destroyed this); destruct m; simpl;
    repeat (case_match; simpl); reflexivity.
Qed.

(** X3.  A scripted call has at most one effect, a [TrayIcon] call or an
    exception, and never emits an event. *)
Theorem one_effect_per_call
    (host : Host) (m : Method) (this : Tray) (past : list Effect) :
  (length (effects (invoke host m this past)) ≤ 1)%nat
  ∧ emitted (effects (invoke host m this past)) = []
  ∧ (length (calls (effects (invoke host m this past)))
     + length (thrown (effects (invoke host m this past))) ≤ 1)%nat.
Proof.
  split; [|split; [apply invoke_emits_nothing|]];
    rewrite invoke_outcome; unfold outcome;
    destruct (destroyed this); destruct m; simpl;
    repeat (case_match; simpl); lia.
Qed.

(** X4.  Only destroy and setContextMenu assign to the object: every
    other scripted call leaves both fields as they were, in every state. *)
Theorem only_destroy_and_setContextMenu_write
    (host : Host) (m : Method) (this : Tray) (past : list Effect) :
  writes_object m = false →
  this_after (invoke host m this past) = this.
Proof.
  rewrite invoke_outcome. unfold outcome. intros Hm.
  destruct (destroyed this); destruct m; try discriminate Hm; simpl;
    repeat (case_match; simpl); reflexivity.
Qed.

Lemma only_destroy_and_setContextMenu_write_witness :
  this_after (invoke (host_on OS_MACOSX) (displayBalloon sample_options)
                live_tray []) = live_tray.
Proof.
  exact (only_destroy_and_setContextMenu_write (host_on OS_MACOSX)
           (displayBalloon sample_options) live_tray [] eq_refl).
Defined.

(** ** Sessions *)

Lemma session_cons (host : Host) (a : Action) (rest : list Action)
    (this : Tray) (past : list Effect) :
  session host (a :: rest) this past =
    let r := act host a this past in
    let s := session host rest (this_after r) (past ++ effects r) in
    (s.1, effects r ++ s.2).
Proof.
  simpl. destruct (act host a this past) as [[u this1] e]. simpl.
  unfold this_after, effects. simpl.
  destruct (session host rest this1 (past ++ e)) as [this2 es]. reflexivity.
Qed.

Lemma act_scripted (host : Host) (m : Method) (this : Tray)
    (past : list Effect) :
  act host (scripted m) this past =
    (tt, this_after (invoke host m this past),
     effects (invoke host m this past)).
Proof.
  unfold act, mbind, Eff_bind, eff_bind.
  destruct (invoke host m this past) as [[r this'] e]. simpl.
  rewrite app_nil_r. reflexivity.
Qed.

Lemma act_native (host : Host) (cb : Callback) (this : Tray)
    (past : list Effect) :
  act host (native cb) this past = (tt, this, [Emitted (event_of cb)]).
Proof. apply deliver_event_of. Qed.

Lemma calls_app (es1 es2 : list Effect) :
  calls (es1 ++ es2) = calls es1 ++ calls es2.
Proof. apply omap_app. Qed.

Lemma emitted_app (es1 es2 : list Effect) :
  emitted (es1 ++ es2) = emitted es1 ++ emitted es2.
Proof. apply omap_app. Qed.

Lemma destroyed_session (host : Host) (actions : list Action) :
  ∀ (this : Tray) (past : list Effect),
    destroyed (session host actions this past).1
    = destroyed this || calls_destroy (methods_of actions).
Proof.
  induction actions as [|a rest IH]; intros this past.
  - simpl. rewrite orb_false_r. reflexivity.
  - rewrite session_cons. cbv zeta. cbn [fst]. rewrite IH.
    destruct a as [m|cb].
    + rewrite act_scripted. unfold this_after at 1. cbn [fst snd].
      rewrite destroyed_invoke. cbn. rewrite orb_assoc. reflexivity.
    + rewrite act_native. reflexivity.
Qed.

(** X5.  Nothing brings a destroyed tray back: after any interleaving of
    scripted calls and native callbacks, in any state, the tray is
    destroyed exactly when it was destroyed before or destroy was among
    the calls.  Callbacks never change that. *)
Theorem destroyed_is_permanent
    (host : Host) (actions : list Action) (this : Tray) (past : list Effect) :
  destroyed (session host actions this past).1
  = destroyed this || calls_destroy (methods_of actions).
Proof. apply destroyed_session. Qed.

(** X6.  The events of a session are the events of its callbacks, one
    for one and in order: no scripted call adds an event and no callback
    is dropped, whether or not the tray is destroyed. *)
Theorem events_follow_callbacks
    (host : Host) (actions : list Action) (this : Tray) (past : list Effect) :
  emitted (session host actions this past).2
  = event_of <$> callbacks_of actions.
Proof.
  revert this past.
  induction actions as [|a rest IH]; intros this past; [reflexivity|].
  rewrite session_cons. cbv zeta. cbn [snd]. rewrite emitted_app, IH.
  destruct a as [m|cb].
  - rewrite act_scripted. unfold effects at 1. cbn [snd].
    rewrite invoke_emits_nothing. reflexivity.
  - rewrite act_native. reflexivity.
Qed.

Example events_of_a_session :
  event_name <$>
    emitted (session (host_on OS_LINUX)
               [native (cb_OnMouseEntered Point_default 0);
                scripted (setToolTip "tip");
                scripted destroy;
                native cb_OnDrop;
                scripted focus] live_tray []).2
  = ["mouse-enter"; "drop"].
Proof. reflexivity. Qed.

Lemma lifetime_session (host : Host) (image : NativeImage)
    (guid : option UUID) (args : Arguments) (actions : list Action) :
  lifetime host image guid args actions =
    let c := Tray_ctor host image guid args [] in
    let s := session host actions c.1 c.2 in
    (s.1, c.2 ++ s.2).
Proof.
  unfold lifetime. destruct (Tray_ctor host image guid args []) as [this es0].
  simpl. destruct (session host actions this es0) as [this' es]. reflexivity.
Qed.

Lemma destroyed_act (host : Host) (a : Action) (this : Tray)
    (past : list Effect) :
  destroyed this = true →
  destroyed (this_after (act host a this past)) = true.
Proof.
  intros Hgone. destruct a as [m|cb].
  - rewrite act_scripted. unfold this_after at 1. cbn [fst snd].
    rewrite destroyed_invoke, Hgone. reflexivity.
  - rewrite act_native. exact Hgone.
Qed.

(** *** The stored menu *)

Lemma act_keeps_no_menu (host : Host) (a : Action) (this : Tray)
    (past : list Effect) :
  (destroyed this = true → menu_ this = None) →
  destroyed (this_after (act host a this past)) = true →
  menu_ (this_after (act host a this past)) = None.
Proof.
  destruct a as [m|cb]; [|rewrite act_native; intros H; exact H].
  rewrite act_scripted. unfold this_after at 1 2. cbn [fst snd].
  rewrite invoke_outcome. unfold outcome.
  destruct this as [[icon|] menu]; simpl.
  - intros _. destruct m; simpl; repeat (case_match; simpl);
      intros Hgone; try discriminate Hgone; reflexivity.
  - intros Hmenu. rewrite (Hmenu eq_refl).
    destruct m; simpl; reflexivity.
Qed.

Lemma session_keeps_no_menu (host : Host) (actions : list Action) :
  ∀ (this : Tray) (past : list Effect),
    (destroyed this = true → menu_ this = None) →
    destroyed (session host actions this past).1 = true →
    menu_ (session host actions this past).1 = None.
Proof.
  induction actions as [|a rest IH]; intros this past Hinv.
  - simpl. exact Hinv.
  - rewrite session_cons. cbv zeta. cbn [fst].
    apply IH. apply act_keeps_no_menu. exact Hinv.
Qed.

(** X7.  In any lifetime of a tray, whatever calls and callbacks follow
    its construction, a destroyed tray holds no menu: the reference that
    keeps a scripted menu alive is dropped with the icon and cannot be set
    again afterwards. *)
Theorem a_destroyed_tray_holds_no_menu
    (host : Host) (image : NativeImage) (guid : option UUID)
    (args : Arguments) (actions : list Action) :
  destroyed (lifetime host image guid args actions).1 = true →
  menu_ (lifetime host image guid args actions).1 = None.
Proof.
  rewrite lifetime_session. cbv zeta. cbn [fst].
  apply session_keeps_no_menu. intros Hgone. discriminate Hgone.
Qed.

Lemma a_destroyed_tray_holds_no_menu_witness :
  menu_ (lifetime (host_on OS_WIN) sample_image None (Arguments_of [])
           [scripted (setContextMenu (v8_Menu sample_menu));
            native cb_OnBalloonShow;
            scripted destroy;
            scripted (setContextMenu (v8_Menu sample_menu))]).1 = None.
Proof.
  exact (a_destroyed_tray_holds_no_menu (host_on OS_WIN) sample_image None
           (Arguments_of [])
           [scripted (setContextMenu (v8_Menu sample_menu));
            native cb_OnBalloonShow;
            scripted destroy;
            scripted (setContextMenu (v8_Menu sample_menu))] eq_refl).
Defined.

Lemma context_menu_model_app (es1 es2 : list Effect) :
  context_menu_model (es1 ++ es2)
  = last_context_menu (context_menu_model es1) es2.
Proof. unfold context_menu_model, last_context_menu. apply foldl_app. Qed.

Lemma act_keeps_menu_alive (host : Host) (a : Action) (this : Tray)
    (past : list Effect) :
  (destroyed this = false → context_menu_model past = model <$> menu_ this) →
  destroyed (this_after (act host a this past)) = false →
  context_menu_model (past ++ effects (act host a this past))
  = model <$> menu_ (this_after (act host a this past)).
Proof.
  rewrite context_menu_model_app.
  destruct a as [m|cb].
  - rewrite act_scripted. unfold this_after at 1 2, effects at 1.
    cbn [fst snd]. rewrite invoke_outcome. unfold outcome.
    destruct this as [[icon|] menu]; simpl.
    + intros Hinv. specialize (Hinv eq_refl).
      destruct m; simpl; repeat (case_match; simpl);
        intros Hlive; try discriminate Hlive; try exact Hinv; reflexivity.
    + intros _. destruct m; simpl; intros Hlive; discriminate Hlive.
  - rewrite act_native. simpl. intros Hinv Hlive. exact (Hinv Hlive).
Qed.

Lemma session_keeps_menu_alive (host : Host) (actions : list Action) :
  ∀ (this : Tray) (past : list Effect),
    (destroyed this = false → context_menu_model past = model <$> menu_ this) →
    destroyed (session host actions this past).1 = false →
    context_menu_model (past ++ (session host actions this past).2)
    = model <$> menu_ (session host actions this past).1.
Proof.
  induction actions as [|a rest IH]; intros this past Hinv.
  - simpl. rewrite app_nil_r. exact Hinv.
  - rewrite session_cons. cbv zeta. cbn [fst snd]. rewrite app_assoc.
    apply IH. apply act_keeps_menu_alive. exact Hinv.
Qed.

(** X8.  In any lifetime of a tray, as long as it is not destroyed, the
    menu model last handed to [TrayIcon::SetContextMenu] is the model of
    the menu stored in [menu_], and none (or nullptr last) when [menu_] is
    empty.  This is about [SetContextMenu] alone: popUpContextMenu hands
    the model of its argument to the icon without storing the menu, as the
    example below shows. *)
Theorem the_icons_menu_is_the_stored_menu
    (host : Host) (image : NativeImage) (guid : option UUID)
    (args : Arguments) (actions : list Action) :
  destroyed (lifetime host image guid args actions).1 = false →
  context_menu_model (lifetime host image guid args actions).2
  = model <$> menu_ (lifetime host image guid args actions).1.
Proof.
  rewrite lifetime_session. cbv zeta. cbn [fst snd].
  apply session_keeps_menu_alive. intros _. reflexivity.
Qed.

Lemma the_icons_menu_is_the_stored_menu_witness :
  context_menu_model
    (lifetime (host_on OS_LINUX) sample_image None (Arguments_of [])
       [scripted (setContextMenu v8_null);
        scripted (setContextMenu (v8_Menu sample_menu));
        scripted (popUpContextMenu []);
        scripted (setContextMenu (v8_String "no menu"));
        native (cb_OnRightClicked Rect_default 0)]).2
  = Some (model sample_menu).
Proof.
  exact (the_icons_menu_is_the_stored_menu (host_on OS_LINUX) sample_image
           None (Arguments_of [])
           [scripted (setContextMenu v8_null);
            scripted (setContextMenu (v8_Menu sample_menu));
            scripted (popUpContextMenu []);
            scripted (setContextMenu (v8_String "no menu"));
            native (cb_OnRightClicked Rect_default 0)] eq_refl).
Defined.

Example popUpContextMenu_does_not_store_its_menu :
  let r := lifetime (host_on OS_LINUX) sample_image None (Arguments_of [])
             [scripted (popUpContextMenu [v8_Menu sample_menu])] in
  menu_ r.1 = None
  ∧ context_menu_model r.2 = None
  ∧ last (calls r.2)
    = Some (TI_PopUpContextMenu Point_default (Some (model sample_menu))).
Proof. repeat split; reflexivity. Qed.

(** *** The life of the native icon *)

Lemma act_calls (host : Host) (a : Action) (this : Tray)
    (past : list Effect) :
  if destroyed this then calls (effects (act host a this past)) = []
  else if destroyed (this_after (act host a this past))
       then calls (effects (act host a this past)) = [TI_delete]
       else Forall (λ c, lifecycle_call c = false)
              (calls (effects (act host a this past))).
Proof.
  destruct a as [m|cb].
  - rewrite act_scripted. unfold this_after at 1, effects at 1 3 5.
    cbn [fst snd]. rewrite invoke_outcome. unfold outcome.
    destruct this as [[icon|] menu]; simpl.
    + destruct m; simpl; repeat (case_match; simpl in * );
        try discriminate; try reflexivity; repeat constructor.
    + destruct m; reflexivity.
  - rewrite act_native. unfold this_after, effects. cbn [fst snd calls omap].
    destruct (destroyed this); constructor.
Qed.

Lemma session_calls (host : Host) (actions : list Action) :
  ∀ (this : Tray) (past : list Effect),
    ∃ middle,
      Forall (λ c, lifecycle_call c = false) middle
      ∧ calls (session host actions this past).2 =
          if destroyed this then []
          else middle ++
               (if destroyed (session host actions this past).1
                then [TI_delete] else []).
Proof.
  induction actions as [|a rest IH]; intros this past.
  - exists []. split; [constructor|]. simpl.
    destruct (destroyed this); reflexivity.
  - rewrite session_cons. cbv zeta. cbn [fst snd]. rewrite calls_app.
    pose proof (act_calls host a this past) as Hstep.
    destruct (IH (this_after (act host a this past))
                (past ++ effects (act host a this past)))
      as (middle & Hmiddle & Hrest).
    rewrite Hrest.
    destruct (destroyed this) eqn:Hthis.
    + rewrite Hstep, destroyed_act by exact Hthis.
      exists []. split; [constructor|reflexivity].
    + destruct (destroyed (this_after (act host a this past))) eqn:Hnext.
      * rewrite Hstep, destroyed_session, Hnext. simpl.
        exists []. split; [constructor|reflexivity].
      * exists (calls (effects (act host a this past)) ++ middle).
        split; [apply Forall_app; split; assumption|].
        rewrite app_assoc. reflexivity.
Qed.

Lemma Tray_dtor_calls (this : Tray) (past : list Effect) :
  calls (effects (Tray_dtor this past))
  = if destroyed this then [] else [TI_delete].
Proof. destruct this as [[icon|] menu]; reflexivity. Qed.

Lemma whole_life_lifetime (host : Host) (image : NativeImage)
    (guid : option UUID) (args : Arguments) (actions : list Action) :
  whole_life host image guid args actions =
    (lifetime host image guid args actions).2
    ++ effects (Tray_dtor (lifetime host image guid args actions).1
                  (lifetime host image guid args actions).2).
Proof.
  unfold whole_life.
  destruct (lifetime host image guid args actions) as [this es]. reflexivity.
Qed.

(** X9.  The native icon is created once and released once.  From the
    construction of a tray to its destruction the calls that reach
    [TrayIcon] are, in order: Create with the guid, SetImage with the
    initial image, AddObserver; then calls that neither create, observe
    nor release; and last the one release of the icon.  The release is
    made by destroy when destroy was among the scripted calls, and by the
    destructor otherwise; nothing reaches the icon after it. *)
Theorem the_icon_lives_once
    (host : Host) (image : NativeImage) (guid : option UUID)
    (args : Arguments) (actions : list Action) :
  ∃ middle,
    Forall (λ c, lifecycle_call c = false) middle
    ∧ calls (lifetime host image guid args actions).2 =
        [TI_Create guid;
         TI_SetImage (ToImageType host SM_CXSMICON image);
         TI_AddObserver]
        ++ middle
        ++ (if calls_destroy (methods_of actions) then [TI_delete] else [])
    ∧ calls (whole_life host image guid args actions) =
        [TI_Create guid;
         TI_SetImage (ToImageType host SM_CXSMICON image);
         TI_AddObserver]
        ++ middle ++ [TI_delete].
Proof.
  rewrite whole_life_lifetime, calls_app, Tray_dtor_calls.
  rewrite lifetime_session. cbv zeta. cbn [fst snd].
  destruct (session_calls host actions
              (Tray_ctor host image guid args []).1
              (Tray_ctor host image guid args []).2)
    as (middle & Hmiddle & Hcalls).
  exists middle. split; [exact Hmiddle|].
  rewrite calls_app, Hcalls, destroyed_session. simpl.
  destruct (calls_destroy (methods_of actions)); simpl.
  - split; [reflexivity|]. rewrite app_nil_r. reflexivity.
  - split; [reflexivity|]. rewrite app_nil_r. reflexivity.
Qed.

Example calls_of_a_lifetime :
  calls (lifetime (host_on OS_MACOSX) sample_image (Some 5%N)
           (Arguments_of [])
           [scripted (setTitle "one");
            native cb_OnDragEntered;
            scripted destroy;
            scripted (setTitle "two");
            scripted destroy]).2
  = [TI_Create (Some 5%N); TI_SetImage (image_of sample_image);
     TI_AddObserver; TI_SetTitle "one"; TI_delete].
Proof. reflexivity. Qed.

Example calls_of_a_life_without_destroy :
  calls (whole_life (host_on OS_LINUX) sample_image None (Arguments_of [])
           [scripted (setToolTip "tip"); native cb_OnDrop; scripted focus])
  = [TI_Create None; TI_SetImage (image_of sample_image); TI_AddObserver;
     TI_SetToolTip "tip"; TI_Focus; TI_delete].
Proof. reflexivity. Qed.

(** ** The icon type names *)

(** X10.  The names and the icon types correspond one to one: every
    icon type is the result of converting some string, and two values
    that convert to the same icon type convert to the same string. *)
Theorem IconType_names_are_one_to_one :
  (∀ type : IconType, ∃ mode,
      ∀ val out, as_string val = Some mode →
                 IconType_FromV8 val out = (true, type))
  ∧ (∀ val1 val2 out1 out2 type,
       IconType_FromV8 val1 out1 = (true, type) →
       IconType_FromV8 val2 out2 = (true, type) →
       as_string val1 = as_string val2).
Proof.
  split.
  - intros type.
    exists (match type with
            | IconType_None => "none" | IconType_Info => "info"
            | IconType_Warning => "warning" | IconType_Error => "error"
            | IconType_Custom => "custom"
            end).
    intros val out Hmode. rewrite IconType_FromV8_named, Hmode.
    destruct type; reflexivity.
  - intros val1 val2 out1 out2 type.
    rewrite !IconType_FromV8_named.
    destruct (as_string val1) as [mode1|], (as_string val2) as [mode2|];
      simpl; try discriminate.
    destruct (IconType_named mode1) as [type1|] eqn:Hnamed1;
      [|discriminate].
    destruct (IconType_named mode2) as [type2|] eqn:Hnamed2;
      [|discriminate].
    intros [= ->] [= ->]. f_equal.
    unfold IconType_named in Hnamed1, Hnamed2.
    apply elem_of_list_to_map_2 in Hnamed1, Hnamed2.
    unfold IconType_names in Hnamed1, Hnamed2.
    set_unfold. destruct_or!; simplify_eq; reflexivity.
Qed.

(** ** Arguments *)

(** X11.  popUpContextMenu reads its first two arguments and nothing
    else: dropping every further argument changes nothing.  The position
    comes from the second argument only, so with a single argument the
    position is the default point, whatever that argument is. *)
Theorem PopUpContextMenu_reads_two_arguments
    (args : list V8Value) (this : Tray) (past : list Effect) :
  PopUpContextMenu (Arguments_of args) this past
  = PopUpContextMenu (Arguments_of (take 2 args)) this past
  ∧ (∀ only, destroyed this = false →
       effects (PopUpContextMenu (Arguments_of [only]) this past) =
         [Call (TI_PopUpContextMenu Point_default (model <$> as_Menu only))]).
Proof.
  destruct this as [[icon|] menu].
  - pose proof (PopUpContextMenu_live args icon menu past) as Hall.
    pose proof (PopUpContextMenu_live (take 2 args) icon menu past) as Htwo.
    simpl in Hall, Htwo. rewrite Hall, Htwo.
    split.
    + destruct args as [|first [|second rest]]; reflexivity.
    + intros only _.
      pose proof (PopUpContextMenu_live [only] icon menu past) as Hone.
      simpl in Hone. rewrite Hone. reflexivity.
  - split; [reflexivity|]. intros only [=].
Qed.

Example popUpContextMenu_with_a_lone_position :
  calls (effects (invoke (host_on OS_LINUX)
                    (popUpContextMenu [v8_Point {| pt_x := 4; pt_y := 5 |}])
                    live_tray [])) =
    [TI_PopUpContextMenu Point_default None].
Proof. reflexivity. Qed.

(** X12.  displayBalloon reads seven properties of its options and no
    other: title, content, icon, iconType, largeIcon, noSound and
    respectQuietTime.  Two dictionaries that agree on these make
    displayBalloon behave the same, in every state. *)
Theorem DisplayBalloon_reads_seven_properties
    (host : Host) (options1 options2 : Dictionary) (this : Tray)
    (past : list Effect) :
  Forall (λ key, options1 !! key = options2 !! key) balloon_keys →
  DisplayBalloon host options1 this past
  = DisplayBalloon host options2 this past.
Proof.
  intros Hsame. destruct this as [[icon|] menu]; [|reflexivity].
  rewrite !DisplayBalloon_live. unfold has_string, BalloonOptions_from.
  unfold balloon_keys in Hsame. rewrite !Forall_cons in Hsame.
  destruct Hsame as (-> & -> & -> & -> & -> & -> & -> & _).
  reflexivity.
Qed.

Lemma DisplayBalloon_reads_seven_properties_witness :
  DisplayBalloon (host_on OS_WIN) sample_options live_tray []
  = DisplayBalloon (host_on OS_WIN)
      (<["sound" := v8_String "loud"]> sample_options) live_tray [].
Proof.
  apply (DisplayBalloon_reads_seven_properties (host_on OS_WIN) sample_options
           (<["sound" := v8_String "loud"]> sample_options) live_tray []).
  repeat (constructor; [vm_compute; reflexivity|]). constructor.
Defined.

(** ** The factory *)

(** X13.  createTray returns a tray exactly when it throws nothing.  A
    returned tray is not destroyed, holds no menu, and came from exactly
    the three calls of its construction; when no tray is returned, one
    error was thrown and nothing reached [TrayIcon]. *)
Theorem New_returns_a_tray_or_throws
    (host : Host) (is_ready : bool) (image : NativeImage)
    (guid : option UUID) (args : Arguments) (past : list Effect) :
  let r := New host is_ready image guid args past in
  match r.1 with
  | Some tray =>
      thrown r.2 = []
      ∧ destroyed tray = false
      ∧ menu_ tray = None
      ∧ calls r.2 =
          [TI_Create guid;
           TI_SetImage (ToImageType host SM_CXSMICON image);
           TI_AddObserver]
  | None =>
      calls r.2 = [] ∧ ∃ message, r.2 = [Throw (Error message)]
  end.
Proof.
  unfold New. destruct is_ready; simpl; [|eauto].
  destruct (defined_OS_WIN (target_os host)
            && (negb (non_null guid) && (1 <? Length args)%nat));
    simpl; eauto.
Qed.

(** ** Guards *)

Lemma no_crash_app (es1 es2 : list Effect) :
  no_crash es1 → no_crash es2 → no_crash (es1 ++ es2).
Proof. intros H1 H2. apply Forall_app. split; assumption. Qed.

Lemma no_crash_act (host : Host) (a : Action) (this : Tray)
    (past : list Effect) :
  no_crash (effects (act host a this past)).
Proof.
  destruct a as [m|cb].
  - rewrite act_scripted. apply no_crash_invoke.
  - rewrite act_native. repeat constructor. discriminate.
Qed.

(** X14.  No scripted call and no callback uses a released icon: in no
    session, from whatever state it starts, is [tray_icon_->...] reached
    while [tray_icon_] is null.  Each of the methods that use the icon
    does so behind [CheckDestroyed], which throws instead, and the
    callbacks do not use the icon.  (The constructor is not part of a
    session; its [AddObserver] is not guarded.) *)
Theorem never_uses_a_released_icon
    (host : Host) (actions : list Action) (this : Tray) (past : list Effect) :
  no_crash (session host actions this past).2.
Proof.
  revert this past.
  induction actions as [|a rest IH]; intros this past; [constructor|].
  rewrite session_cons. cbv zeta. cbn [snd].
  apply no_crash_app; [apply no_crash_act|apply IH].
Qed.

(** X15.  isDestroyed tells, without any effect, whether the other
    methods will refuse: when it returns true, every method but destroy
    and isDestroyed throws "Tray is destroyed" and nothing else; when it
    returns false, none of them throws that error. *)
Theorem isDestroyed_predicts_refusal
    (host : Host) (m : Method) (this : Tray) (past : list Effect) :
  lifecycle m = false →
  (invoke host isDestroyed this past = (ret_bool true, this, [])
   ∧ effects (invoke host m this past) = [Throw (Error "Tray is destroyed")])
  ∨ (invoke host isDestroyed this past = (ret_bool false, this, [])
     ∧ Error "Tray is destroyed" ∉ thrown (effects (invoke host m this past))).
Proof.
  intros Hm. rewrite !invoke_outcome. unfold outcome.
  destruct (destroyed this); [left|right].
  - split; [reflexivity|]. destruct m; try discriminate Hm; reflexivity.
  - split; [reflexivity|].
    destruct m; try discriminate Hm; simpl;
      repeat (case_match; simpl); intros Hin;
      repeat (apply elem_of_cons in Hin as [Hin|Hin]; [discriminate Hin|]);
      apply elem_of_nil in Hin; exact Hin.
Qed.

Lemma isDestroyed_predicts_refusal_witness :
  (invoke (host_on OS_LINUX) isDestroyed released_tray []
   = (ret_bool true, released_tray, [])
   ∧ effects (invoke (host_on OS_LINUX) focus released_tray [])
     = [Throw (Error "Tray is destroyed")])
  ∨ (invoke (host_on OS_LINUX) isDestroyed released_tray []
     = (ret_bool false, released_tray, [])
     ∧ Error "Tray is destroyed"
       ∉ thrown (effects (invoke (host_on OS_LINUX) focus released_tray []))).
Proof.
  exact (isDestroyed_predicts_refusal (host_on OS_LINUX) focus released_tray
           [] eq_refl).
Defined.
